(** * Local Writing Assistant: the heuristic tone-analysis engine

    A shallow embedding of [server/services/tone.py] (class
    [ToneAnalysisService]) and of the batch endpoint of
    [server/routers/tone.py], followed by the properties of the engine.

    Conventions of the embedding.
    - A Python [str] is a list of characters.  Characters are the code
      points U+0000..U+00FF, carried by [ascii]; on that range the tables
      below ([isspace], [is_word], [lower_char]) are those of CPython's
      Unicode database, and [str.lower] does not leave the range.
    - A Python [int] is a [Z]; [len] returns a [Z].
    - A Python [float] is an exact rational [Q]: rounding is not modelled,
      the branch structure and the thresholds are.  The theorems state
      which branch is taken, how the results are built from the running
      values, and bounds; a decimal value is stated only where the
      float computation returns the float that the decimal denotes.
    - [x / y] on a divisor that is not a literal raises
      [ZeroDivisionError] when the divisor is zero: such code lives in the
      [result] monad.  A division by a non-zero literal is pure.
    - A dictionary with a fixed set of keys is a record. *)

From Stdlib Require Import List Bool Ascii String ZArith QArith Qabs Lia Lqa.
Import ListNotations.

Set Implicit Arguments.

(** ** Exceptions *)

Inductive exn : Type :=
| ZeroDivisionError.

Inductive result (A : Type) : Type :=
| Ok (a : A)
| Raise (e : exn).

Arguments Ok {A} a.
Arguments Raise {A} e.

Definition bind {A B : Type} (c : result A) (k : A -> result B) : result B :=
  match c with
  | Ok a => k a
  | Raise e => Raise e
  end.

Notation "x <- c ;; k" := (bind c (fun x => k))
  (at level 61, c at next level, right associativity).

(** [str(e)] for the exceptions of this development. *)
Definition str_exn (e : exn) : string :=
  match e with
  | ZeroDivisionError => "division by zero"
  end.

(** ** Python numbers *)

Module PyNum.

Definition Qltb (x y : Q) : bool := negb (Qle_bool y x).

(** [min(a, b)] and [max(a, b)] keep the first argument on a tie. *)
Definition min (a b : Q) : Q := if Qltb b a then b else a.
Definition max (a b : Q) : Q := if Qltb a b then b else a.

(** True division [a / b]. *)
Definition div (a b : Q) : result Q :=
  if Qeq_bool b 0 then Raise ZeroDivisionError else Ok (a / b).

Definition sum (l : list Z) : Z := fold_right Z.add 0%Z l.

End PyNum.

(** ** Python strings and the regular expressions of the service *)

Definition pystr : Type := list ascii.

Definition str (x : string) : pystr := list_ascii_of_string x.

Definition len {A : Type} (l : list A) : Z := Z.of_nat (List.length l).

Module PyStr.

Definition code (c : ascii) : N := N_of_ascii c.

Definition between (lo hi : N) (c : ascii) : bool :=
  ((lo <=? code c) && (code c <=? hi))%N.

Definition is_code (n : N) (c : ascii) : bool := (code c =? n)%N.

(** [str.isspace] on one character: TAB..CR, FS..US, SPACE, NEL, NBSP. *)
Definition isspace (c : ascii) : bool :=
  between 9 13 c || between 28 32 c || is_code 133 c || is_code 160 c.

(** The class [[A-Z]]. *)
Definition is_AZ (c : ascii) : bool := between 65 90 c.

(** [str.isalnum] on one character: letters, decimal digits, and the
    digits and numerics of the Latin-1 supplement. *)
Definition isalnum (c : ascii) : bool :=
  between 48 57 c || between 65 90 c || between 97 122 c
  || is_code 170 c || is_code 178 c || is_code 179 c || is_code 181 c
  || is_code 185 c || is_code 186 c || between 188 190 c
  || between 192 214 c || between 216 246 c || between 248 255 c.

(** The class [\w] of a [str] pattern. *)
Definition is_word (c : ascii) : bool := isalnum c || is_code 95 c.

Definition lower_char (c : ascii) : ascii :=
  if between 65 90 c || between 192 214 c || between 216 222 c
  then ascii_of_N (code c + 32)
  else c.

(** [s.lower()] *)
Definition lower (t : pystr) : pystr := map lower_char t.

Fixpoint dropWhile (p : ascii -> bool) (t : pystr) : pystr :=
  match t with
  | [] => []
  | c :: t' => if p c then dropWhile p t' else t
  end.

(** [s.strip()] *)
Definition strip (t : pystr) : pystr :=
  rev (dropWhile isspace (rev (dropWhile isspace t))).

(** The truth value of a string: [if s] holds for a non-empty one. *)
Definition truthy (t : pystr) : bool :=
  match t with
  | [] => false
  | _ :: _ => true
  end.

Fixpoint eqb (a b : pystr) : bool :=
  match a, b with
  | [], [] => true
  | x :: a', y :: b' => Ascii.eqb x y && eqb a' b'
  | _, _ => false
  end.

(** [w in set] for a set of strings. *)
Definition mem (w : pystr) (set : list pystr) : bool := existsb (eqb w) set.

(** The maximal non-empty runs of characters satisfying [p], from left
    to right.  This is [findall] for a pattern [c+] over a class [c], and
    for [\b\w+\b] with [p := is_word]; it is [s.split()] with
    [p := not isspace]. *)
Fixpoint runs (p : ascii -> bool) (t : pystr) : list pystr :=
  match t with
  | [] => []
  | c :: t' =>
      if p c then
        match t' with
        | [] => [[c]]
        | c' :: _ =>
            if p c' then
              match runs p t' with
              | r :: rs => (c :: r) :: rs
              | [] => [[c]]
              end
            else [c] :: runs p t'
        end
      else runs p t'
  end.

(** [s.split()] *)
Definition split (t : pystr) : list pystr := runs (fun c => negb (isspace c)) t.

(** [re.split(sep+, s)] for a character class [sep]: the pieces between
    the maximal runs of separators, the empty pieces at both ends
    included.  [in_sep] tells that the previous character was a
    separator. *)
Fixpoint re_split_from (sep : ascii -> bool) (in_sep : bool) (t : pystr)
  : list pystr :=
  match t with
  | [] => [[]]
  | c :: t' =>
      if sep c then
        if in_sep then re_split_from sep true t'
        else [] :: re_split_from sep true t'
      else
        match re_split_from sep false t' with
        | piece :: rest => (c :: piece) :: rest
        | [] => [[c]]
        end
  end.

Definition re_split (sep : ascii -> bool) (t : pystr) : list pystr :=
  re_split_from sep false t.

(** [findall] counts for a pattern given by its matcher at a position:
    [at_head t] is the length of the match starting at the head of [t],
    if there is one.  Matches are taken leftmost and do not overlap:
    after a match of length [n] the scan resumes [n] characters on. *)
Fixpoint count_matches (at_head : pystr -> option nat) (skip : nat) (t : pystr)
  : nat :=
  match t with
  | [] => 0
  | _ :: t' =>
      match skip with
      | S k => count_matches at_head k t'
      | O =>
          match at_head t with
          | Some n => S (count_matches at_head (Nat.pred n) t')
          | None => count_matches at_head 0 t'
          end
      end
  end.

End PyStr.

(** ** [server/services/tone.py] *)

Module Sentiment.
Inductive t : Type := POSITIVE | NEUTRAL | NEGATIVE.

Definition value (s : t) : string :=
  match s with
  | POSITIVE => "positive"
  | NEUTRAL => "neutral"
  | NEGATIVE => "negative"
  end.
End Sentiment.

Module Formality.
Inductive t : Type := FORMAL | NEUTRAL | CASUAL.

Definition value (f : t) : string :=
  match f with
  | FORMAL => "formal"
  | NEUTRAL => "neutral"
  | CASUAL => "casual"
  end.
End Formality.

(** The dictionary built by [_extract_features]: the integer counts, the
    float [avg_word_length], and the ratios added by [features.update]. *)
Record Features : Type := {
  word_count : Z;
  char_count : Z;
  sentence_count : Z;
  avg_word_length : Q;
  exclamation_count : Z;
  question_count : Z;
  caps_words : Z;
  ellipsis_count : Z;
  emoticon_count : Z;
  positive_word_count : Z;
  negative_word_count : Z;
  formal_word_count : Z;
  casual_word_count : Z;
  contraction_count : Z;
  positive_ratio : Q;
  negative_ratio : Q;
  formal_ratio : Q;
  casual_ratio : Q;
  contraction_ratio : Q;
  caps_ratio : Q;
  exclamation_ratio : Q
}.

(** The dictionary [{'sentiment': .., 'formality': ..}]. *)
Record Scores : Type := {
  score_sentiment : Q;
  score_formality : Q
}.

(** The dataclass [ToneAnalysis]; [features = None] is the empty
    dictionary of the blank-input result. *)
Record ToneAnalysis : Type := {
  sentiment : Sentiment.t;
  formality : Formality.t;
  scores : Scores;
  confidence : Q;
  features : option Features
}.

Module ToneAnalysisService.

Import PyStr.

(** *** [_load_lexicons] *)

Definition positive_words : list pystr := map str [
  "excellent"; "great"; "amazing"; "wonderful"; "fantastic"; "awesome";
  "love"; "like"; "enjoy"; "appreciate"; "pleased"; "happy"; "glad";
  "good"; "nice"; "perfect"; "brilliant"; "outstanding"; "superb";
  "delighted"; "thrilled"; "excited"; "satisfied"; "impressed";
  "thank"; "thanks"; "grateful"; "blessing"; "fortunate"; "lucky"
]%string.

Definition negative_words : list pystr := map str [
  "terrible"; "awful"; "horrible"; "bad"; "worst"; "hate"; "dislike";
  "disappointed"; "frustrated"; "angry"; "annoyed"; "upset"; "sad";
  "wrong"; "problem"; "issue"; "error"; "mistake"; "fail"; "failure";
  "difficult"; "hard"; "challenging"; "struggle"; "trouble"; "worry";
  "concerned"; "unfortunately"; "regret"; "sorry"; "apologize"
]%string.

Definition formal_words : list pystr := map str [
  "furthermore"; "moreover"; "consequently"; "therefore"; "nevertheless";
  "notwithstanding"; "accordingly"; "subsequently"; "henceforth";
  "pursuant"; "regarding"; "concerning"; "pertaining"; "whereby";
  "heretofore"; "aforementioned"; "undersigned"; "herewith";
  "establish"; "facilitate"; "implement"; "utilize"; "demonstrate";
  "indicate"; "constitute"; "represent"; "acknowledge"; "endeavor"
]%string.

Definition casual_words : list pystr := map str [
  "yeah"; "yep"; "nope"; "gonna"; "wanna"; "gotta"; "kinda"; "sorta";
  "stuff"; "thing"; "things"; "guys"; "dude"; "awesome"; "cool";
  "super"; "really"; "pretty"; "quite"; "totally"; "definitely";
  "basically"; "literally"; "actually"; "obviously"; "seriously";
  "honestly"; "frankly"; "btw"; "fyi"; "imho"; "tbh"
]%string.

Definition contractions : list pystr := map str [
  "won't"; "can't"; "don't"; "didn't"; "hasn't"; "haven't"; "isn't";
  "aren't"; "wasn't"; "weren't"; "shouldn't"; "wouldn't"; "couldn't";
  "I'm"; "you're"; "he's"; "she's"; "it's"; "we're"; "they're";
  "I've"; "you've"; "we've"; "they've"; "I'd"; "you'd"; "he'd";
  "she'd"; "we'd"; "they'd"; "I'll"; "you'll"; "he'll"; "she'll";
  "we'll"; "they'll"; "that's"; "what's"; "who's"; "where's"
]%string.

(** *** [_compile_patterns]: each pattern with its [findall] *)

(** [!+] *)
Definition exclamation_pattern (t : pystr) : list pystr := runs (is_code 33) t.

(** [\?+] *)
Definition question_pattern (t : pystr) : list pystr := runs (is_code 63) t.

(** [\b[A-Z]{2,}\b]: a match starts and ends at a word boundary, so it
    is a whole maximal run of word characters, all of them in [[A-Z]]
    and at least two. *)
Definition caps_pattern (t : pystr) : list pystr :=
  filter (fun r => forallb is_AZ r && (2 <=? len r)%Z) (runs is_word t).

(** [\.{3,}]: the maximal runs of dots that have three dots or more. *)
Definition ellipsis_pattern (t : pystr) : list pystr :=
  filter (fun r => (3 <=? len r)%Z) (runs (is_code 46) t).

(** The classes [[:;=]] and [[)D(P\\/]]. *)
Definition is_eyes (c : ascii) : bool :=
  is_code 58 c || is_code 59 c || is_code 61 c.

Definition is_mouth (c : ascii) : bool :=
  is_code 41 c || is_code 68 c || is_code 40 c || is_code 80 c
  || is_code 92 c || is_code 47 c.

(** [X-?Y] at the head of [t]: the optional dash is tried first. *)
Definition dashed_pair (X Y : ascii -> bool) (t : pystr) : option nat :=
  match t with
  | a :: b :: rest =>
      if X a then
        if is_code 45 b && match rest with c :: _ => Y c | [] => false end
        then Some 3%nat
        else if Y b then Some 2%nat else None
      else None
  | _ => None
  end.

(** [[:;=]-?[)D(P\\/]|[)D(P\\/]-?[:;=]] at the head of [t]. *)
Definition emoticon_at (t : pystr) : option nat :=
  match dashed_pair is_eyes is_mouth t with
  | Some n => Some n
  | None => dashed_pair is_mouth is_eyes t
  end.

(** [len(self.emoticon_pattern.findall(text))] *)
Definition emoticon_pattern_count (t : pystr) : Z :=
  Z.of_nat (count_matches emoticon_at 0 t).

(** [\b\w+\b] (the flag [re.IGNORECASE] does not change [\w]). *)
Definition word_pattern (t : pystr) : list pystr := runs is_word t.

(** The class [[.!?]] of the sentence splitter. *)
Definition is_terminator (c : ascii) : bool :=
  is_code 46 c || is_code 33 c || is_code 63 c.

(** [sum(1 for w in ws if w in set)] *)
Definition count_in (set : list pystr) (ws : list pystr) : Z :=
  len (filter (fun w => mem w set) ws).

Local Open Scope Q_scope.

(** *** [_extract_features] *)

Definition _extract_features (text : pystr) : result Features :=
  let text_lower := lower text in
  let words := word_pattern text_lower in
  let word_count_ := len words in
  let char_count_ := len text in
  let sentence_count_ :=
    len (filter (fun s => truthy (strip s)) (re_split is_terminator text)) in
  avg_word_length_ <-
    PyNum.div (inject_Z (PyNum.sum (map len words)))
              (inject_Z (Z.max (len words) 1)) ;;
  let exclamation_count_ := len (exclamation_pattern text) in
  let question_count_ := len (question_pattern text) in
  let caps_words_ := len (caps_pattern text) in
  let ellipsis_count_ := len (ellipsis_pattern text) in
  let emoticon_count_ := emoticon_pattern_count text in
  let positive_word_count_ := count_in positive_words words in
  let negative_word_count_ := count_in negative_words words in
  let formal_word_count_ := count_in formal_words words in
  let casual_word_count_ := count_in casual_words words in
  let contraction_count_ :=
    len (filter (fun w => mem (lower w) contractions) (split text)) in
  (* Ratios *)
  let word_count' := Z.max word_count_ 1 in
  positive_ratio_ <-
    PyNum.div (inject_Z positive_word_count_) (inject_Z word_count') ;;
  negative_ratio_ <-
    PyNum.div (inject_Z negative_word_count_) (inject_Z word_count') ;;
  formal_ratio_ <-
    PyNum.div (inject_Z formal_word_count_) (inject_Z word_count') ;;
  casual_ratio_ <-
    PyNum.div (inject_Z casual_word_count_) (inject_Z word_count') ;;
  contraction_ratio_ <-
    PyNum.div (inject_Z contraction_count_) (inject_Z word_count') ;;
  caps_ratio_ <-
    PyNum.div (inject_Z caps_words_) (inject_Z word_count') ;;
  exclamation_ratio_ <-
    PyNum.div (inject_Z exclamation_count_)
              (inject_Z (Z.max sentence_count_ 1)) ;;
  Ok {| word_count := word_count_;
        char_count := char_count_;
        sentence_count := sentence_count_;
        avg_word_length := avg_word_length_;
        exclamation_count := exclamation_count_;
        question_count := question_count_;
        caps_words := caps_words_;
        ellipsis_count := ellipsis_count_;
        emoticon_count := emoticon_count_;
        positive_word_count := positive_word_count_;
        negative_word_count := negative_word_count_;
        formal_word_count := formal_word_count_;
        casual_word_count := casual_word_count_;
        contraction_count := contraction_count_;
        positive_ratio := positive_ratio_;
        negative_ratio := negative_ratio_;
        formal_ratio := formal_ratio_;
        casual_ratio := casual_ratio_;
        contraction_ratio := contraction_ratio_;
        caps_ratio := caps_ratio_;
        exclamation_ratio := exclamation_ratio_ |}.

(** *** [_analyze_sentiment]

    The two running scores [(positive_score, negative_score)] are
    threaded through the adjustments in the order of the source. *)

Definition sentiment_base (features : Features) : Q * Q :=
  (positive_ratio features * 2.0, negative_ratio features * 2.0).

Definition sentiment_exclamations (features : Features) (pn : Q * Q) : Q * Q :=
  let '(positive_score, negative_score) := pn in
  if (0 <? exclamation_count features)%Z then
    if PyNum.Qltb negative_score positive_score then
      (positive_score + exclamation_ratio features * 0.5, negative_score)
    else if PyNum.Qltb positive_score negative_score then
      (positive_score, negative_score + exclamation_ratio features * 0.5)
    else pn
  else pn.

Definition sentiment_emoticons (features : Features) (pn : Q * Q) : Q * Q :=
  let '(positive_score, negative_score) := pn in
  if (0 <? emoticon_count features)%Z then
    (positive_score + 0.2, negative_score)
  else pn.

Definition sentiment_caps (features : Features) (pn : Q * Q) : Q * Q :=
  let '(positive_score, negative_score) := pn in
  if PyNum.Qltb 0.1 (caps_ratio features) then
    if PyNum.Qltb negative_score positive_score then
      (positive_score + 0.3, negative_score)
    else
      (positive_score, negative_score + 0.3)
  else pn.

Definition sentiment_category (net_score : Q) : Sentiment.t :=
  if PyNum.Qltb 0.2 net_score then Sentiment.POSITIVE
  else if PyNum.Qltb net_score (-0.2) then Sentiment.NEGATIVE
  else Sentiment.NEUTRAL.

(** The running scores when the caps adjustment is reached. *)
Definition sentiment_before_caps (features : Features) : Q * Q :=
  sentiment_emoticons features
    (sentiment_exclamations features (sentiment_base features)).

Definition _analyze_sentiment (text : pystr) (features : Features)
  : Sentiment.t * Q :=
  let '(positive_score, negative_score) :=
    sentiment_caps features (sentiment_before_caps features) in
  let net_score := positive_score - negative_score in
  (sentiment_category net_score, net_score).

(** *** [_analyze_formality]: the running scores are
    [(formal_score, casual_score)]. *)

Definition formality_base (features : Features) : Q * Q :=
  (formal_ratio features * 3.0, casual_ratio features * 2.0).

Definition formality_contractions (features : Features) (fc : Q * Q) : Q * Q :=
  let '(formal_score, casual_score) := fc in
  (formal_score, casual_score + contraction_ratio features * 2.0).

Definition formality_punctuation (features : Features) (fc : Q * Q) : Q * Q :=
  let '(formal_score, casual_score) := fc in
  let casual_score :=
    if PyNum.Qltb 0.5 (exclamation_ratio features)
    then casual_score + 0.5 else casual_score in
  let casual_score :=
    if (0 <? ellipsis_count features)%Z
    then casual_score + 0.3 else casual_score in
  (formal_score, casual_score).

Definition formality_word_length (features : Features) (fc : Q * Q) : Q * Q :=
  let '(formal_score, casual_score) := fc in
  if PyNum.Qltb 5.5 (avg_word_length features) then
    (formal_score + 0.5, casual_score)
  else if PyNum.Qltb (avg_word_length features) 4.0 then
    (formal_score, casual_score + 0.3)
  else fc.

Definition formality_sentence_length (features : Features) (fc : Q * Q)
  : result (Q * Q) :=
  let '(formal_score, casual_score) := fc in
  if (0 <? word_count features)%Z && (0 <? sentence_count features)%Z then
    avg_sentence_length <-
      PyNum.div (inject_Z (word_count features))
                (inject_Z (sentence_count features)) ;;
    if PyNum.Qltb 15 avg_sentence_length then
      Ok (formal_score + 0.4, casual_score)
    else if PyNum.Qltb avg_sentence_length 8 then
      Ok (formal_score, casual_score + 0.3)
    else Ok fc
  else Ok fc.

Definition formality_category (net_score : Q) : Formality.t :=
  if PyNum.Qltb 0.5 net_score then Formality.FORMAL
  else if PyNum.Qltb net_score (-0.5) then Formality.CASUAL
  else Formality.NEUTRAL.

(** The running scores when the sentence-length adjustment is reached. *)
Definition formality_before_sentence_length (features : Features) : Q * Q :=
  formality_word_length features
    (formality_punctuation features
      (formality_contractions features (formality_base features))).

Definition _analyze_formality (text : pystr) (features : Features)
  : result (Formality.t * Q) :=
  fc <- formality_sentence_length features
          (formality_before_sentence_length features) ;;
  let '(formal_score, casual_score) := fc in
  let net_score := formal_score - casual_score in
  Ok (formality_category net_score, net_score).

(** *** [_calculate_confidence] *)

Definition _calculate_confidence (features : Features)
  (sentiment_score formality_score : Q) : Q :=
  let word_count := word_count features in
  let length_confidence := PyNum.min (inject_Z word_count / 50.0) 1.0 in
  let sentiment_strength := Qabs sentiment_score in
  let formality_strength := Qabs formality_score in
  let feature_confidence := (sentiment_strength + formality_strength) / 2.0 in
  let overall_confidence :=
    length_confidence * 0.6 + feature_confidence * 0.4 in
  PyNum.min (PyNum.max overall_confidence 0.1) 1.0.

(** *** [analyze_tone] *)

Definition blank_analysis : ToneAnalysis :=
  {| sentiment := Sentiment.NEUTRAL;
     formality := Formality.NEUTRAL;
     scores := {| score_sentiment := 0.0; score_formality := 0.0 |};
     confidence := 0.0;
     features := None |}.

Section Analyzer.

(** The method [self._extract_features], looked up on the instance. *)
Variable extract_features : pystr -> result Features.

Definition analyze_tone_with (text : pystr) : result ToneAnalysis :=
  if negb (truthy (strip text)) then Ok blank_analysis
  else
    features_ <- extract_features text ;;
    let '(sentiment_, sentiment_score) := _analyze_sentiment text features_ in
    fs <- _analyze_formality text features_ ;;
    let '(formality_, formality_score) := fs in
    let confidence_ :=
      _calculate_confidence features_ sentiment_score formality_score in
    Ok {| sentiment := sentiment_;
          formality := formality_;
          scores := {| score_sentiment := sentiment_score;
                       score_formality := formality_score |};
          confidence := confidence_;
          features := Some features_ |}.

End Analyzer.

Definition analyze_tone (text : pystr) : result ToneAnalysis :=
  analyze_tone_with _extract_features text.

(** *** [health_check]: the sample text and the verdict [test_passed]. *)

Definition test_text : pystr :=
  str "I'm really excited about this amazing opportunity!".

Definition test_passed (analysis : ToneAnalysis) : bool :=
  match sentiment analysis with
  | Sentiment.POSITIVE => PyNum.Qltb 0.3 (confidence analysis)
  | _ => false
  end.

End ToneAnalysisService.

(** ** [server/routers/tone.py]: the batch endpoint *)

Module Router.

Import PyStr ToneAnalysisService.
Local Open Scope Q_scope.
Local Open Scope string_scope.

(** A handler returns its response or raises [HTTPException]. *)
Inductive http (A : Type) : Type :=
| Response (a : A)
| HTTPException (status_code : Z) (detail : string).

Arguments Response {A} a.
Arguments HTTPException {A} status_code detail.

(** The dictionary [{"sentiment": .., "formality": ..}] of labels. *)
Record Labels : Type := {
  label_sentiment : string;
  label_formality : string
}.

(** One entry of ["results"]; the key ["reason"] is only present in the
    entries that were skipped. *)
Record BatchItem : Type := {
  item_text : pystr;
  item_labels : Labels;
  item_scores : Scores;
  item_confidence : Q;
  skipped : bool;
  reason : option string
}.

(** The response dictionary, without the wall-clock field ["time_ms"]. *)
Record BatchResponse : Type := {
  results : list BatchItem;
  total_texts : Z;
  successful_analyses : Z;
  average_confidence : Q
}.

Definition skipped_item (text : pystr) (why : string) : BatchItem :=
  {| item_text := text;
     item_labels := {| label_sentiment := "neutral";
                       label_formality := "neutral" |};
     item_scores := {| score_sentiment := 0.0; score_formality := 0.0 |};
     item_confidence := 0.0;
     skipped := true;
     reason := Some why |}.

Definition analysed_item (text : pystr) (analysis : ToneAnalysis) : BatchItem :=
  {| item_text := text;
     item_labels :=
       {| label_sentiment := Sentiment.value (sentiment analysis);
          label_formality := Formality.value (formality analysis) |};
     item_scores := scores analysis;
     item_confidence := confidence analysis;
     skipped := false;
     reason := None |}.

(** The variables the loop updates. *)
Record loop : Type := {
  loop_results : list BatchItem;
  total_confidence : Q;
  processed_count : Z
}.

(** One iteration of [for i, text in enumerate(request.texts)]. *)
Definition batch_step (st : loop) (text : pystr) : loop :=
  if negb (truthy (strip text)) then
    {| loop_results := loop_results st ++ [skipped_item text "Empty text"];
       total_confidence := total_confidence st;
       processed_count := processed_count st |}
  else
    match analyze_tone text with
    | Ok analysis =>
        {| loop_results := loop_results st ++ [analysed_item text analysis];
           total_confidence := total_confidence st + confidence analysis;
           processed_count := processed_count st + 1 |}
    | Raise e =>
        {| loop_results :=
             loop_results st
             ++ [skipped_item text ("Analysis failed: " ++ str_exn e)];
           total_confidence := total_confidence st;
           processed_count := processed_count st |}
    end.

(** The entry that one iteration appends to [results]. *)
Definition batch_entry (text : pystr) : BatchItem :=
  if negb (truthy (strip text)) then skipped_item text "Empty text"
  else
    match analyze_tone text with
    | Ok analysis => analysed_item text analysis
    | Raise e => skipped_item text ("Analysis failed: " ++ str_exn e)
    end.

Definition batch_start : loop :=
  {| loop_results := []; total_confidence := 0.0; processed_count := 0 |}.

Definition analyze_tone_batch (texts : list pystr) : http BatchResponse :=
  match texts with
  | [] => HTTPException 400 "No texts provided"
  | _ :: _ =>
      if (10 <? len texts)%Z then
        HTTPException 400
          "Too many texts. Maximum 10 texts per batch request."
      else
        let st := fold_left batch_step texts batch_start in
        match PyNum.div (total_confidence st)
                        (inject_Z (Z.max (processed_count st) 1)) with
        | Ok avg_confidence =>
            Response {| results := loop_results st;
                        total_texts := len texts;
                        successful_analyses := processed_count st;
                        average_confidence := avg_confidence |}
        | Raise e =>
            HTTPException 500 ("Batch tone analysis failed: " ++ str_exn e)
        end
  end.

End Router.

(** ** Properties named by the specification *)

Module Spec.

Import ToneAnalysisService.
Local Open Scope Q_scope.

(** The ratio of a count over a denominator floored at 1. *)
Definition floored_ratio (count denominator : Z) : Q :=
  inject_Z count / inject_Z (Z.max denominator 1).

(** The invariant of a feature vector: the counts are not negative and
    every ratio is its count over the floored denominator. *)
Record feature_invariant (f : Features) : Prop := {
  inv_word_count : (0 <= word_count f)%Z;
  inv_char_count : (0 <= char_count f)%Z;
  inv_sentence_count : (0 <= sentence_count f)%Z;
  inv_exclamation_count : (0 <= exclamation_count f)%Z;
  inv_question_count : (0 <= question_count f)%Z;
  inv_caps_words : (0 <= caps_words f)%Z;
  inv_ellipsis_count : (0 <= ellipsis_count f)%Z;
  inv_emoticon_count : (0 <= emoticon_count f)%Z;
  inv_positive_word_count : (0 <= positive_word_count f)%Z;
  inv_negative_word_count : (0 <= negative_word_count f)%Z;
  inv_formal_word_count : (0 <= formal_word_count f)%Z;
  inv_casual_word_count : (0 <= casual_word_count f)%Z;
  inv_contraction_count : (0 <= contraction_count f)%Z;
  inv_positive_ratio :
    positive_ratio f = floored_ratio (positive_word_count f) (word_count f);
  inv_negative_ratio :
    negative_ratio f = floored_ratio (negative_word_count f) (word_count f);
  inv_formal_ratio :
    formal_ratio f = floored_ratio (formal_word_count f) (word_count f);
  inv_casual_ratio :
    casual_ratio f = floored_ratio (casual_word_count f) (word_count f);
  inv_contraction_ratio :
    contraction_ratio f = floored_ratio (contraction_count f) (word_count f);
  inv_caps_ratio :
    caps_ratio f = floored_ratio (caps_words f) (word_count f);
  inv_exclamation_ratio :
    exclamation_ratio f
    = floored_ratio (exclamation_count f) (sentence_count f)
}.

(** [f] with another [positive_word_count] and [positive_ratio], every
    other field kept. *)
Definition with_positive (f : Features) (count : Z) (ratio : Q) : Features :=
  {| word_count := word_count f;
     char_count := char_count f;
     sentence_count := sentence_count f;
     avg_word_length := avg_word_length f;
     exclamation_count := exclamation_count f;
     question_count := question_count f;
     caps_words := caps_words f;
     ellipsis_count := ellipsis_count f;
     emoticon_count := emoticon_count f;
     positive_word_count := count;
     negative_word_count := negative_word_count f;
     formal_word_count := formal_word_count f;
     casual_word_count := casual_word_count f;
     contraction_count := contraction_count f;
     positive_ratio := ratio;
     negative_ratio := negative_ratio f;
     formal_ratio := formal_ratio f;
     casual_ratio := casual_ratio f;
     contraction_ratio := contraction_ratio f;
     caps_ratio := caps_ratio f;
     exclamation_ratio := exclamation_ratio f |}.

(** The sentence-length adjustment of the formality scorer, as a
    relation between the running scores [(formal, casual)] before and
    after it: with [avg = word_count / sentence_count], [0.4] more
    formal when [avg > 15], otherwise [0.3] more casual when [avg < 8]. *)
Definition sentence_length_adjusted (f : Features) (before after : Q * Q)
  : Prop :=
  let avg := inject_Z (word_count f) / inject_Z (sentence_count f) in
  if PyNum.Qltb 15 avg then
    fst after == fst before + 0.4 /\ snd after == snd before
  else if PyNum.Qltb avg 8 then
    fst after == fst before /\ snd after == snd before + 0.3
  else
    fst after == fst before /\ snd after == snd before.

(** The four entries of the contraction lexicon that are stored with a
    capital, and those four forms as a lowercased token has them. *)
Definition capitalized_contractions : list pystr :=
  map str ["I'm"; "I've"; "I'd"; "I'll"]%string.

Definition lowercased_I_forms : list pystr :=
  map str ["i'm"; "i've"; "i'd"; "i'll"]%string.

(** The contraction lexicon without its capitalized entries. *)
Definition lowercase_contractions : list pystr :=
  filter (fun w => negb (PyStr.mem w capitalized_contractions)) contractions.

End Spec.

(** ** [server/routers/tone.py]: the single-text endpoints *)

Module ToneRouter.

Import PyStr Router.
Local Open Scope Q_scope.
Local Open Scope string_scope.

(** [ToneResponse], without the wall-clock field [time_ms]. *)
Record ToneResponse : Type := {
  labels : Labels;
  response_scores : Scores;
  response_confidence : Q;
  text_length : Z
}.

(** [DetailedToneResponse], without the wall-clock field [time_ms]. *)
Record DetailedToneResponse : Type := {
  detailed_labels : Labels;
  detailed_scores : Scores;
  detailed_confidence : Q;
  detailed_features : option Features;
  detailed_text_length : Z
}.

(** [POST /tone]: the handler on the text of an already validated
    request.  [HTTPException] raised inside the [try] is re-raised, any
    other exception becomes a 500. *)
Definition analyze_tone (text : pystr) : http ToneResponse :=
  if negb (truthy (strip text)) then
    HTTPException 400 "Text cannot be empty"
  else
    match ToneAnalysisService.analyze_tone text with
    | Ok analysis =>
        Response
          {| labels :=
               {| label_sentiment := Sentiment.value (sentiment analysis);
                  label_formality := Formality.value (formality analysis) |};
             response_scores := scores analysis;
             response_confidence := confidence analysis;
             text_length := len text |}
    | Raise e => HTTPException 500 ("Tone analysis failed: " ++ str_exn e)
    end.

(** [POST /tone/detailed] *)
Definition analyze_tone_detailed (text : pystr) : http DetailedToneResponse :=
  if negb (truthy (strip text)) then
    HTTPException 400 "Text cannot be empty"
  else
    match ToneAnalysisService.analyze_tone text with
    | Ok analysis =>
        Response
          {| detailed_labels :=
               {| label_sentiment := Sentiment.value (sentiment analysis);
                  label_formality := Formality.value (formality analysis) |};
             detailed_scores := scores analysis;
             detailed_confidence := confidence analysis;
             detailed_features := features analysis;
             detailed_text_length := len text |}
    | Raise e =>
        HTTPException 500 ("Detailed tone analysis failed: " ++ str_exn e)
    end.

End ToneRouter.

(** ** [server/main.py]: the authentication dependency of the routers *)

Module Main.

Import PyStr Router.
Local Open Scope string_scope.

(** What [verify_token] reads of a request: [request.url.path],
    [request.method] and [request.headers.get("X-Local-Auth")]. *)
Record Request : Type := {
  url_path : pystr;
  method : pystr;
  x_local_auth : option pystr
}.

(** [s.startswith(prefix)] *)
Fixpoint startswith (s prefix : pystr) {struct prefix} : bool :=
  match prefix, s with
  | [], _ => true
  | p :: prefix', c :: s' => Ascii.eqb c p && startswith s' prefix'
  | _ :: _, [] => false
  end.

(** [verify_token]: [credentials] is the bearer token of the
    [Authorization] header, if there is one, and [LOCAL_API_TOKEN] the
    value of that environment variable, if it is set.  The function
    returns [None] or raises; the headers of the 401 are left out. *)
Definition verify_token (request : Request) (credentials : option pystr)
  (LOCAL_API_TOKEN : option pystr) : http unit :=
  if startswith (url_path request) (str "/health")
     || eqb (method request) (str "OPTIONS")
  then Response tt
  else
    let expected_token := LOCAL_API_TOKEN in
    match expected_token with
    | None =>
        HTTPException 500 "Server configuration error: API token not set"
    | Some expected =>
        if negb (truthy expected) then
          HTTPException 500 "Server configuration error: API token not set"
        else
          let auth_header := x_local_auth request in
          if match auth_header with
             | Some header => truthy header && eqb header expected
             | None => false
             end
          then Response tt
          else if match credentials with
                  | Some token => eqb token expected
                  | None => false
                  end
          then Response tt
          else HTTPException 401 "Invalid or missing authentication token"
    end.

End Main.

(** ** More vocabulary for the properties *)

Module SpecMore.

Local Open Scope Q_scope.

(** [f] with another [negative_word_count] and [negative_ratio], every
    other field kept. *)
Definition with_negative (f : Features) (count : Z) (ratio : Q) : Features :=
  {| word_count := word_count f;
     char_count := char_count f;
     sentence_count := sentence_count f;
     avg_word_length := avg_word_length f;
     exclamation_count := exclamation_count f;
     question_count := question_count f;
     caps_words := caps_words f;
     ellipsis_count := ellipsis_count f;
     emoticon_count := emoticon_count f;
     positive_word_count := positive_word_count f;
     negative_word_count := count;
     formal_word_count := formal_word_count f;
     casual_word_count := casual_word_count f;
     contraction_count := contraction_count f;
     positive_ratio := positive_ratio f;
     negative_ratio := ratio;
     formal_ratio := formal_ratio f;
     casual_ratio := casual_ratio f;
     contraction_ratio := contraction_ratio f;
     caps_ratio := caps_ratio f;
     exclamation_ratio := exclamation_ratio f |}.

(** A text is blank when [text.strip()] is empty. *)
Definition nonblank (text : pystr) : bool := PyStr.truthy (PyStr.strip text).

(** The requests that [verify_token] lets through without a token: a
    path that starts with [/health], or the method [OPTIONS]. *)
Definition exempt (request : Main.Request) : Prop :=
  (exists rest, Main.url_path request = str "/health" ++ rest)
  \/ Main.method request = str "OPTIONS".

(** The characters that are word characters once lowercased. *)
Definition lowered_word (c : ascii) : bool :=
  PyStr.is_word (PyStr.lower_char c).

(** What the counts of an extracted vector owe to the word count. *)
Record counts_fit (f : Features) : Prop := {
  fit_positive_negative :
    (positive_word_count f + negative_word_count f <= word_count f)%Z;
  fit_formal_casual :
    (formal_word_count f + casual_word_count f <= word_count f)%Z;
  fit_casual_contractions :
    (casual_word_count f + 2 * contraction_count f <= word_count f)%Z;
  fit_caps : (caps_words f <= word_count f)%Z;
  fit_sentences : (0 < word_count f -> 0 < sentence_count f)%Z
}.

(** The same for the ratios, as the scorers use them. *)
Record ratios_fit (f : Features) : Prop := {
  fit_positive : 0 <= positive_ratio f;
  fit_negative : 0 <= negative_ratio f;
  fit_polarity : positive_ratio f + negative_ratio f <= 1;
  fit_formal : 0 <= formal_ratio f <= 1;
  fit_casual : 0 <= casual_ratio f;
  fit_contraction : 0 <= contraction_ratio f;
  fit_register : formal_ratio f + casual_ratio f <= 1;
  fit_casual_contraction : casual_ratio f + 2 * contraction_ratio f <= 1;
  fit_caps_ratio : 0 <= caps_ratio f <= 1;
  fit_exclamation : 0 <= exclamation_ratio f
}.

End SpecMore.

(** * Verification *)

(** ** Numbers *)

Module PyNumFacts.

Import PyNum.
Local Open Scope Q_scope.

Lemma Qltb_lt (x y : Q) : Qltb x y = true <-> x < y.
Proof.
  unfold Qltb. rewrite negb_true_iff. split; intro H.
  - apply Qnot_le_lt. intro L. apply Qle_bool_iff in L. congruence.
  - destruct (Qle_bool y x) eqn:E; [|reflexivity].
    apply Qle_bool_iff in E. exfalso. exact (Qlt_not_le _ _ H E).
Qed.

Lemma Qltb_ge (x y : Q) : Qltb x y = false <-> y <= x.
Proof. unfold Qltb. rewrite negb_false_iff. apply Qle_bool_iff. Qed.

(** Case analysis on a comparison, leaving the order fact in the
    context. *)
Lemma Qltb_spec (x y : Q) : reflect (x < y) (Qltb x y).
Proof.
  destruct (Qltb x y) eqn:E; constructor.
  - now apply Qltb_lt.
  - apply Qltb_ge in E. now apply Qle_not_lt.
Qed.

Lemma py_min_spec (a b : Q) : min a b <= a /\ min a b <= b
                           /\ (min a b = a \/ min a b = b).
Proof.
  unfold min. destruct (Qltb_spec b a) as [H|H].
  - repeat split; try lra. now right.
  - repeat split; try lra. now left.
Qed.

Lemma py_max_spec (a b : Q) : a <= max a b /\ b <= max a b
                           /\ (max a b = a \/ max a b = b).
Proof.
  unfold max. destruct (Qltb_spec a b) as [H|H].
  - repeat split; try lra. now right.
  - repeat split; try lra. now left.
Qed.

(** [min(max(x, lo), hi)] lies in [[lo, hi]]. *)
Lemma clamp_bounds (x lo hi : Q) :
  lo <= hi -> lo <= min (max x lo) hi <= hi.
Proof.
  intro H.
  destruct (py_max_spec x lo) as (_ & M & _).
  unfold min. destruct (Qltb_spec hi (max x lo)); lra.
Qed.

Lemma inject_Z_pos (b : Z) : (1 <= b)%Z -> 0 < inject_Z b.
Proof. intro H. change 0 with (inject_Z 0). rewrite <- Zlt_Qlt. lia. Qed.

(** A division by a positive integer does not raise. *)
Lemma div_floored (a : Q) (b : Z) :
  div a (inject_Z (Z.max b 1)) = Ok (a / inject_Z (Z.max b 1)).
Proof.
  unfold div.
  destruct (Qeq_bool (inject_Z (Z.max b 1)) 0) eqn:E; [|reflexivity].
  apply Qeq_bool_iff in E.
  assert (P : 0 < inject_Z (Z.max b 1)) by (apply inject_Z_pos; lia).
  rewrite E in P. exfalso. exact (Qlt_irrefl _ P).
Qed.

Lemma div_positive (a : Q) (b : Z) :
  (0 < b)%Z -> div a (inject_Z b) = Ok (a / inject_Z b).
Proof.
  intro H. replace b with (Z.max b 1) by lia. apply div_floored.
Qed.

Lemma ratio_bounds (a b : Z) :
  (0 <= a <= b)%Z -> (1 <= b)%Z -> 0 <= inject_Z a / inject_Z b <= 1.
Proof.
  intros [H0 H1] Hb. pose proof (inject_Z_pos Hb) as P. split.
  - apply Qle_shift_div_l; [exact P|].
    rewrite Qmult_0_l. change 0 with (inject_Z 0). rewrite <- Zle_Qle. lia.
  - apply Qle_shift_div_r; [exact P|].
    rewrite Qmult_1_l. rewrite <- Zle_Qle. lia.
Qed.

Lemma ratio_nonneg (a b : Z) :
  (0 <= a)%Z -> (1 <= b)%Z -> 0 <= inject_Z a / inject_Z b.
Proof.
  intros H0 Hb. apply Qle_shift_div_l; [now apply inject_Z_pos|].
  rewrite Qmult_0_l. change 0 with (inject_Z 0). rewrite <- Zle_Qle. lia.
Qed.

Lemma ratio_monotone (a a' b : Z) :
  (a <= a')%Z -> (1 <= b)%Z ->
  inject_Z a / inject_Z b <= inject_Z a' / inject_Z b.
Proof.
  intros H Hb. pose proof (inject_Z_pos Hb) as P.
  apply Qle_shift_div_l; [exact P|].
  unfold Qdiv. rewrite <- Qmult_assoc, (Qmult_comm (/ _)), Qmult_inv_r.
  - rewrite Qmult_1_r. rewrite <- Zle_Qle. exact H.
  - intro E. rewrite E in P. exact (Qlt_irrefl _ P).
Qed.

End PyNumFacts.

Module ScorerFacts.

Import PyNum PyNumFacts ToneAnalysisService Spec.
Local Open Scope Q_scope.

(** Splits the goal on every float comparison it branches on. *)
Ltac split_comparisons :=
  repeat match goal with
         | |- context [Qltb ?x ?y] => destruct (Qltb_spec x y)
         | |- context [(?x <? ?y)%Z] => destruct (Z.ltb_spec x y)
         end.

Lemma confidence_clamped (f : Features) (s_score f_score : Q) :
  0.1 <= _calculate_confidence f s_score f_score <= 1.0.
Proof.
  unfold _calculate_confidence. apply clamp_bounds. lra.
Qed.

Lemma formality_sentence_length_total (f : Features) (fc : Q * Q) :
  exists fc', formality_sentence_length f fc = Ok fc'.
Proof.
  unfold formality_sentence_length. destruct fc as [formal casual].
  destruct (Z.ltb_spec 0 (word_count f)); simpl; [|eauto].
  destruct (Z.ltb_spec 0 (sentence_count f)); simpl; [|eauto].
  rewrite div_positive by assumption. simpl.
  split_comparisons; eauto.
Qed.

Lemma _analyze_formality_total (text : pystr) (f : Features) :
  exists r, _analyze_formality text f = Ok r.
Proof.
  unfold _analyze_formality.
  destruct (formality_sentence_length_total f
              (formality_before_sentence_length f)) as [[formal casual] E].
  rewrite E. simpl. eauto.
Qed.

(** The net sentiment score does not decrease when the positive ratio
    grows, the other fields fixed. *)
Lemma sentiment_net_monotone (text : pystr) (f : Features) (c : Z) (r : Q) :
  positive_ratio f <= r ->
  0 <= exclamation_ratio f ->
  snd (_analyze_sentiment text f)
  <= snd (_analyze_sentiment text (with_positive f c r)).
Proof.
  intros Hr He.
  unfold _analyze_sentiment, sentiment_before_caps, sentiment_caps,
    sentiment_emoticons, sentiment_exclamations, sentiment_base.
  simpl.
  split_comparisons; simpl; split_comparisons; simpl; lra.
Qed.

End ScorerFacts.

Module PyStrFacts.

Import PyStr.

(** *** Characters: facts checked on each of the 256 characters *)

Ltac each_char c := destruct c as [[] [] [] [] [] [] [] []]; reflexivity.

Lemma lower_char_word (c : ascii) : is_word (lower_char c) = is_word c.
Proof. each_char c. Qed.

Lemma word_not_space (c : ascii) : is_word c && isspace c = false.
Proof. each_char c. Qed.

Lemma lower_char_word_not_space (c : ascii) :
  is_word (lower_char c) = true -> negb (isspace c) = true.
Proof.
  rewrite lower_char_word. intro W.
  pose proof (word_not_space c) as N. rewrite W in N. simpl in N.
  now rewrite N.
Qed.

Lemma lower_char_not_AZ (c : ascii) : is_AZ (lower_char c) = false.
Proof. each_char c. Qed.

(** *** String equality and membership *)

Lemma eqb_eq (a b : pystr) : eqb a b = true <-> a = b.
Proof.
  revert b. induction a as [|x a IH]; intros [|y b]; simpl;
    try (split; [discriminate | congruence]); try tauto.
  rewrite andb_true_iff, Ascii.eqb_eq, IH.
  split; [intros [-> ->]; reflexivity | intro E; injection E; auto].
Qed.

Lemma mem_In (w : pystr) (set : list pystr) : mem w set = true <-> In w set.
Proof.
  unfold mem. rewrite existsb_exists. split.
  - intros (x & I & E). apply eqb_eq in E. now subst.
  - intro I. exists w. split; [exact I | now apply eqb_eq].
Qed.

(** Membership in a set from which some entries that [w] does not match
    were removed. *)
Lemma mem_filter_out (w : pystr) (gone set : list pystr) :
  mem w gone = false ->
  mem w (filter (fun x => negb (mem x gone)) set) = mem w set.
Proof.
  intro G. induction set as [|x set IH]; [reflexivity|].
  simpl. destruct (mem x gone) eqn:X; simpl.
  - rewrite IH. destruct (eqb w x) eqn:E; [|reflexivity].
    apply eqb_eq in E. subst. congruence.
  - unfold mem in *. simpl. now rewrite IH.
Qed.

(** *** Runs *)

Lemma runs_skip (p : ascii -> bool) (c : ascii) (t : pystr) :
    p c = false -> runs p (c :: t) = runs p t.
  Proof. intro H. simpl. now rewrite H. Qed.

  (** A run that starts at [c] starts the list of runs. *)
Lemma runs_head (p : ascii -> bool) (c : ascii) (t : pystr) :
    p c = true -> exists r rs, runs p (c :: t) = (c :: r) :: rs.
  Proof.
    intro H. simpl. rewrite H. destruct t as [|c' t]; [eauto|].
    destruct (p c'); [|eauto].
    destruct (runs p (c' :: t)); eauto.
  Qed.

Lemma runs_cons_cons (p : ascii -> bool) (c c' : ascii) (t : pystr) :
  runs p (c :: c' :: t)
  = if p c then
      if p c' then
        match runs p (c' :: t) with
        | r :: rs => (c :: r) :: rs
        | [] => [[c]]
        end
      else [c] :: runs p (c' :: t)
    else runs p (c' :: t).
Proof. reflexivity. Qed.

Section Runs.

Variable p : ascii -> bool.

Lemma runs_ext (q : ascii -> bool) (t : pystr) :
  (forall c, p c = q c) -> runs p t = runs q t.
Proof.
  intro E. induction t as [|c t IH]; [reflexivity|].
  simpl. rewrite <- E. destruct t as [|c' t]; [reflexivity|].
  rewrite <- E, IH. reflexivity.
Qed.

Lemma runs_map (f : ascii -> ascii) (t : pystr) :
  runs p (map f t) = map (map f) (runs (fun c => p (f c)) t).
Proof.
  induction t as [|c t IH]; [reflexivity|].
  cbn [map runs]. destruct (p (f c)); [|exact IH].
  destruct t as [|c' t]; [reflexivity|].
  cbn [map] in *. destruct (p (f c')).
  - rewrite IH. destruct (runs _ (c' :: t)); reflexivity.
  - rewrite IH. reflexivity.
Qed.

(** The runs of a class that lies inside a class [q] are found run of
    [q] by run of [q]. *)
Lemma runs_refine (q : ascii -> bool) (t : pystr) :
  (forall c, p c = true -> q c = true) ->
  runs p t = List.concat (map (runs p) (runs q t)).
Proof.
  intro Sub.
  assert (Out : forall c, q c = false -> p c = false).
  { intros c Qc. destruct (p c) eqn:Pc; [|reflexivity].
    apply Sub in Pc. congruence. }
  induction t as [|c t IH]; [reflexivity|].
  destruct (q c) eqn:Qc.
  2:{ rewrite (runs_skip q), (runs_skip p); auto. }
  destruct t as [|c' t].
  { simpl. rewrite Qc. simpl. destruct (p c); reflexivity. }
  rewrite (runs_cons_cons q), (runs_cons_cons p), Qc.
  destruct (q c') eqn:Qc'.
  - destruct (runs_head q c' t Qc') as (r & rs & E).
    rewrite E in *. cbn [map List.concat] in *.
    rewrite (runs_cons_cons p c c' r).
    destruct (p c); [|exact IH].
    destruct (p c') eqn:Pc'; rewrite IH; [|reflexivity].
    destruct (runs_head p c' r Pc') as (r' & rs' & ->). reflexivity.
  - rewrite (Out c' Qc'). cbn [map List.concat]. rewrite <- IH.
    simpl. destruct (p c); reflexivity.
Qed.

End Runs.

Lemma len_nonneg {A : Type} (l : list A) : (0 <= len l)%Z.
Proof. unfold len. lia. Qed.

Lemma len_filter_le {A : Type} (f : A -> bool) (l : list A) :
  (len (filter f l) <= len l)%Z.
Proof.
  unfold len. apply inj_le. induction l as [|x l IH]; simpl; [lia|].
  destruct (f x); simpl; lia.
Qed.

(** When every selected piece holds a run, the runs outnumber the
    selected pieces. *)
Lemma selected_le_runs (p : ascii -> bool) (sel : pystr -> bool)
  (pieces : list pystr) :
  (forall w, sel w = true -> runs p w <> []) ->
  (len (filter sel pieces) <= len (List.concat (map (runs p) pieces)))%Z.
Proof.
  intro H. unfold len. apply inj_le.
  induction pieces as [|w ws IH]; simpl; [lia|].
  rewrite length_app. destruct (sel w) eqn:S; simpl; [|lia].
  apply H in S. destruct (runs p w); [congruence|]. simpl. lia.
Qed.

End PyStrFacts.

Module ExtractFacts.

Import PyNum PyNumFacts PyStr PyStrFacts ToneAnalysisService Spec.
Local Open Scope Q_scope.

(** Feature extraction returns: every divisor is floored at 1. *)
Lemma _extract_features_total (text : pystr) :
  exists f, _extract_features text = Ok f.
Proof.
  unfold _extract_features. rewrite !div_floored. unfold bind. eauto.
Qed.

(** Inverts a successful extraction into the record it built. *)
Ltac extracted H :=
  unfold _extract_features in H; rewrite !div_floored in H;
  unfold bind in H; injection H as <-;
  cbn [word_count char_count sentence_count avg_word_length
       exclamation_count question_count caps_words ellipsis_count
       emoticon_count positive_word_count negative_word_count
       formal_word_count casual_word_count contraction_count
       positive_ratio negative_ratio formal_ratio casual_ratio
       contraction_ratio caps_ratio exclamation_ratio].

Lemma extracted_invariant (text : pystr) (f : Features) :
  _extract_features text = Ok f -> feature_invariant f.
Proof.
  intro H. extracted H.
  constructor; cbn; try apply len_nonneg; try reflexivity.
  unfold emoticon_pattern_count. lia.
Qed.

Lemma extracted_word_count (text : pystr) (f : Features) :
  _extract_features text = Ok f ->
  word_count f = len (word_pattern (lower text)).
Proof. intro H. extracted H. reflexivity. Qed.

Lemma extracted_contraction_count (text : pystr) (f : Features) :
  _extract_features text = Ok f ->
  contraction_count f
  = len (filter (fun w => mem (lower w) contractions) (split text)).
Proof. intro H. extracted H. reflexivity. Qed.

Lemma extracted_caps_words (text : pystr) (f : Features) :
  _extract_features text = Ok f -> caps_words f = len (caps_pattern text).
Proof. intro H. extracted H. reflexivity. Qed.

Lemma extracted_lexicon_counts (text : pystr) (f : Features) :
  _extract_features text = Ok f ->
  let words := word_pattern (lower text) in
  positive_word_count f = count_in positive_words words
  /\ negative_word_count f = count_in negative_words words
  /\ formal_word_count f = count_in formal_words words
  /\ casual_word_count f = count_in casual_words words.
Proof. intro H. extracted H. repeat split. Qed.

Lemma extracted_avg_word_length (text : pystr) (f : Features) :
  _extract_features text = Ok f ->
  let words := word_pattern (lower text) in
  avg_word_length f
  = inject_Z (PyNum.sum (map len words)) / inject_Z (Z.max (len words) 1).
Proof. intro H. extracted H. reflexivity. Qed.

(** *** The counts against the word count *)

Lemma count_in_le (set words : list pystr) :
  (0 <= count_in set words <= len words)%Z.
Proof.
  unfold count_in. split; [apply len_nonneg | apply len_filter_le].
Qed.

(** Lowercasing keeps the words apart: as many words before as after. *)
Lemma words_of_lower (t : pystr) :
  word_pattern (lower t) = map lower (word_pattern t).
Proof.
  unfold word_pattern, lower. rewrite runs_map.
  rewrite (runs_ext _ is_word) by apply lower_char_word. reflexivity.
Qed.

Lemma caps_words_le_words (text : pystr) :
  (len (caps_pattern text) <= len (word_pattern (lower text)))%Z.
Proof.
  rewrite words_of_lower. unfold caps_pattern, word_pattern.
  etransitivity; [apply len_filter_le|].
  unfold len. rewrite length_map. lia.
Qed.

(** Every entry of the contraction lexicon holds a word. *)
Lemma contraction_has_word (w : pystr) :
  mem w contractions = true -> word_pattern w <> [].
Proof.
  intro M. apply mem_In in M.
  assert (A : forallb (fun w => match word_pattern w with
                                  | [] => false
                                  | _ :: _ => true
                                  end) contractions = true)
    by (vm_compute; reflexivity).
  rewrite forallb_forall in A. specialize (A w M).
  destruct (word_pattern w); [discriminate | congruence].
Qed.

End ExtractFacts.

Module AnalyzerFacts.

Import PyNum PyNumFacts PyStr PyStrFacts ToneAnalysisService Spec.
Import ScorerFacts ExtractFacts.
Local Open Scope Q_scope.

Lemma contractions_le_words (text : pystr) :
  (len (filter (fun w => mem (lower w) contractions) (split text))
   <= len (word_pattern (lower text)))%Z.
Proof.
  set (p := fun c => is_word (lower_char c)).
  assert (W : forall t, word_pattern (lower t) = map lower (runs p t)).
  { intro t. unfold word_pattern, lower. now rewrite runs_map. }
  rewrite W. unfold len at 2. rewrite length_map. fold (len (runs p text)).
  unfold split.
  rewrite (runs_refine p (fun c => negb (isspace c)) text)
    by apply lower_char_word_not_space.
  apply selected_le_runs. intros w M.
  apply contraction_has_word in M. rewrite W in M.
  destruct (runs p w); [exact M | discriminate].
Qed.

Lemma analyze_tone_total (text : pystr) :
  exists analysis, analyze_tone text = Ok analysis.
Proof.
  unfold analyze_tone, analyze_tone_with.
  destruct (truthy (strip text)); simpl; [|eauto].
  destruct (_extract_features_total text) as [f ->]. simpl.
  destruct (_analyze_sentiment text f) as [s s_score].
  destruct (_analyze_formality_total text f) as [[fo f_score] ->]. simpl.
  eauto.
Qed.

(** The result on a text that is not blank. *)
Lemma analyze_tone_nonblank (text : pystr) :
  truthy (strip text) = true ->
  exists f fo, _extract_features text = Ok f
    /\ _analyze_formality text f = Ok fo
    /\ analyze_tone text =
       Ok {| sentiment := fst (_analyze_sentiment text f);
             formality := fst fo;
             scores := {| score_sentiment := snd (_analyze_sentiment text f);
                          score_formality := snd fo |};
             confidence :=
               _calculate_confidence f (snd (_analyze_sentiment text f))
                                     (snd fo);
             features := Some f |}.
Proof.
  intro N. unfold analyze_tone, analyze_tone_with. rewrite N. simpl.
  destruct (_extract_features_total text) as [f E].
  destruct (_analyze_formality_total text f) as [fo F].
  exists f, fo. rewrite E. cbn [bind].
  destruct (_analyze_sentiment text f) as [s s_score].
  rewrite F. destruct fo as [fo f_score]. repeat split; reflexivity.
Qed.

Lemma analyze_tone_blank (extract : pystr -> result Features) (text : pystr) :
  truthy (strip text) = false ->
  analyze_tone_with extract text = Ok blank_analysis.
Proof. intro B. unfold analyze_tone_with. now rewrite B. Qed.

End AnalyzerFacts.

Module RouterFacts.

Import PyNum PyNumFacts PyStr ToneAnalysisService Router AnalyzerFacts.
Local Open Scope Q_scope.

Lemma batch_step_results (st : loop) (text : pystr) :
  loop_results (batch_step st text) = loop_results st ++ [batch_entry text].
Proof.
  unfold batch_step, batch_entry.
  destruct (negb (truthy (strip text))); [reflexivity|].
  destruct (analyze_tone text); reflexivity.
Qed.

Lemma batch_loop_results (texts : list pystr) (st : loop) :
  loop_results (fold_left batch_step texts st)
  = loop_results st ++ map batch_entry texts.
Proof.
  revert st. induction texts as [|text texts IH]; intro st; simpl.
  - now rewrite app_nil_r.
  - rewrite IH, batch_step_results, <- app_assoc. reflexivity.
Qed.

(** A batch of one to ten texts is answered, entry by entry. *)
Lemma analyze_tone_batch_response (texts : list pystr) :
  texts <> [] -> (len texts <= 10)%Z ->
  exists response,
    analyze_tone_batch texts = Response response
    /\ results response = map batch_entry texts.
Proof.
  intros NE L. unfold analyze_tone_batch.
  destruct texts as [|t ts]; [congruence|].
  destruct (Z.ltb_spec 10 (len (t :: ts))); [lia|].
  rewrite div_floored. eexists. split; [reflexivity|].
  cbn [results]. now rewrite batch_loop_results.
Qed.

Lemma batch_entry_blank (text : pystr) :
  truthy (strip text) = false ->
  batch_entry text = skipped_item text "Empty text".
Proof. intro B. unfold batch_entry. now rewrite B. Qed.

Lemma batch_entry_nonblank (text : pystr) :
  truthy (strip text) = true ->
  exists analysis,
    analyze_tone text = Ok analysis
    /\ batch_entry text = analysed_item text analysis.
Proof.
  intro N. unfold batch_entry. rewrite N.
  destruct (analyze_tone_total text) as [analysis E].
  exists analysis. now rewrite E.
Qed.

End RouterFacts.

(** ** The embedding on sample inputs *)

Module Examples.

Import PyStr ToneAnalysisService.
Local Open Scope string_scope.

Example re_split_pieces :
  map (fun t => map string_of_list_ascii (re_split is_terminator (str t)))
      ["a.b"; ".a"; "a."; ".."; ""; "Hi there! Ok?? Yes..."]
  = [["a"; "b"]; [""; "a"]; ["a"; ""]; [""; ""]; [""];
     ["Hi there"; " Ok"; " Yes"; ""]].
Proof. reflexivity. Qed.

Example split_tokens :
  map string_of_list_ascii (split (str "  I'm   here, won't go "))
  = ["I'm"; "here,"; "won't"; "go"].
Proof. reflexivity. Qed.

Example words_of_a_contraction :
  map string_of_list_ascii (word_pattern (lower (str "Won't STOP_now")))
  = ["won"; "t"; "stop_now"].
Proof. reflexivity. Qed.

Example exclamation_runs :
  map (fun t => len (exclamation_pattern (str t))) ["wow!!! no! yes"; "none"]
  = [2; 0]%Z.
Proof. reflexivity. Qed.

Example caps_words_found :
  map (fun t => len (caps_pattern (str t))) ["ABc DE"; "AB_"; "AB CD E"; "I AM"]
  = [1; 0; 2; 1]%Z.
Proof. reflexivity. Qed.

Example ellipses_found :
  map (fun t => len (ellipsis_pattern (str t))) ["a...b..c...."; ".."]
  = [2; 0]%Z.
Proof. reflexivity. Qed.

Example emoticons_found :
  map (fun t => emoticon_pattern_count (str t))
      [":)"; ";-D"; "(:"; ":-"; ":-)"; ":):)"; ":)("; "=-="; ":-:)"]
  = [1; 1; 1; 0; 1; 2; 1; 0; 1]%Z.
Proof. reflexivity. Qed.

(** A casual text without charged words: casual and neutral. *)
Example casual_and_neutral :
  exists analysis,
    analyze_tone (str "yeah gonna be kinda late lol") = Ok analysis
    /\ formality analysis = Formality.CASUAL
    /\ sentiment analysis = Sentiment.NEUTRAL.
Proof. eexists. split; [vm_compute; reflexivity|]. split; reflexivity. Qed.

End Examples.

(** ** The properties *)

Module Properties.

Import PyNum PyNumFacts PyStr PyStrFacts ToneAnalysisService Spec.
Import ScorerFacts ExtractFacts AnalyzerFacts Router RouterFacts.
Local Open Scope Q_scope.

(** *** The sentence-length adjustment (C1) *)

(** C1, as stated, fails on the text ["@#$"]: it is not blank, it has
    one sentence and no word, so the average sentence length is 0; the
    scorer leaves the running scores as they are, where the claim has
    0.3 added to the casual score. *)
Lemma sentence_length_adjustment_skipped_without_words :
  exists f,
    truthy (strip (str "@#$")) = true
    /\ _extract_features (str "@#$") = Ok f
    /\ sentence_count f = 1%Z
    /\ word_count f = 0%Z
    /\ formality_sentence_length f (0, 0) = Ok (0, 0)
    /\ ~ (exists after,
             formality_sentence_length f (0, 0) = Ok after
             /\ sentence_length_adjusted f (0, 0) after).
Proof.
  eexists. split; [reflexivity|].
  split; [vm_compute; reflexivity|].
  split; [reflexivity|]. split; [reflexivity|].
  split; [reflexivity|].
  intros (after & Step & Adjusted).
  vm_compute in Step. injection Step as <-.
  vm_compute in Adjusted. destruct Adjusted as [_ Casual]. discriminate.
Qed.

(** C1, amended: the adjustment is applied when both [word_count] and
    [sentence_count] are positive, and it is skipped when either of them
    is zero. *)
Theorem sentence_length_adjustment_guard (f : Features) (before : Q * Q) :
  ((0 < word_count f)%Z /\ (0 < sentence_count f)%Z ->
   exists after,
     formality_sentence_length f before = Ok after
     /\ sentence_length_adjusted f before after)
  /\ (word_count f = 0%Z \/ sentence_count f = 0%Z ->
      formality_sentence_length f before = Ok before).
Proof.
  destruct before as [formal casual]. split.
  - intros [W S]. unfold formality_sentence_length, sentence_length_adjusted.
    apply Z.ltb_lt in W, S. rewrite W, S. cbn [andb].
    apply Z.ltb_lt in S. rewrite div_positive by exact S. cbn [bind].
    split_comparisons; eexists; (split; [reflexivity|]); cbn [fst snd];
      split; reflexivity.
  - intros [W|S]; unfold formality_sentence_length.
    + rewrite W. reflexivity.
    + rewrite S. now rewrite andb_false_r.
Qed.

Lemma sentence_length_adjustment_guard_witness :
  exists f,
    _extract_features (str "great job") = Ok f
    /\ (0 < word_count f)%Z /\ (0 < sentence_count f)%Z
    /\ exists after,
         formality_sentence_length f (0, 0) = Ok after
         /\ sentence_length_adjusted f (0, 0) after.
Proof.
  eexists. split; [vm_compute; reflexivity|].
  split; [reflexivity|]. split; [reflexivity|].
  apply (sentence_length_adjustment_guard _ (0, 0)). split; reflexivity.
Defined.

(** *** Confidence (C2) *)

(** C2: on a text that is not blank the confidence is the clamped
    combination of the length and feature confidences and lies in
    [[0.1, 1.0]]; the confidence is 0.0 exactly on a blank text. *)
Theorem confidence_range (text : pystr) :
  exists analysis,
    analyze_tone text = Ok analysis
    /\ (truthy (strip text) = true ->
        0.1 <= confidence analysis <= 1.0
        /\ exists f,
             features analysis = Some f
             /\ confidence analysis
                = PyNum.min
                    (PyNum.max
                       (PyNum.min (inject_Z (word_count f) / 50.0) 1.0 * 0.6
                        + (Qabs (score_sentiment (scores analysis))
                           + Qabs (score_formality (scores analysis)))
                          / 2.0 * 0.4)
                       0.1)
                    1.0)
    /\ (confidence analysis == 0.0 <-> truthy (strip text) = false).
Proof.
  destruct (truthy (strip text)) eqn:B.
  - destruct (analyze_tone_nonblank text B) as (f & fo & _ & _ & E).
    eexists. split; [exact E|]. cbn [confidence features scores
      score_sentiment score_formality].
    pose proof (confidence_clamped f (snd (_analyze_sentiment text f))
                  (snd fo)) as C.
    split; [|split].
    + intros _. split; [exact C|]. exists f. split; reflexivity.
    + intro Z. rewrite Z in C. exfalso. lra.
    + discriminate.
  - exists blank_analysis. split; [now apply analyze_tone_blank|].
    split; [discriminate|]. split; reflexivity.
Qed.

Lemma confidence_range_witness :
  exists analysis,
    analyze_tone test_text = Ok analysis
    /\ 0.1 <= confidence analysis <= 1.0.
Proof.
  destruct (confidence_range test_text) as (analysis & E & Bounds & _).
  exists analysis. split; [exact E|]. exact (proj1 (Bounds eq_refl)).
Defined.

(** *** The caps adjustment of the sentiment scorer (C3) *)

(** C3: with [caps_ratio > 0.1] the 0.3 goes to the positive score when
    it is strictly greater than the negative one at that point, and to
    the negative score otherwise, a tie included; the net score is the
    difference of the two scores so adjusted. *)
Theorem caps_tie_favours_negative
  (text : pystr) (f : Features) (positive negative : Q) :
  0.1 < caps_ratio f ->
  sentiment_before_caps f = (positive, negative) ->
  (negative < positive ->
   sentiment_caps f (positive, negative) = (positive + 0.3, negative)
   /\ snd (_analyze_sentiment text f) = positive + 0.3 - negative)
  /\ (~ negative < positive ->
      sentiment_caps f (positive, negative) = (positive, negative + 0.3)
      /\ snd (_analyze_sentiment text f) = positive - (negative + 0.3))
  /\ (positive == negative ->
      sentiment_caps f (positive, negative) = (positive, negative + 0.3)
      /\ snd (_analyze_sentiment text f) = positive - (negative + 0.3)).
Proof.
  intros Caps Before.
  assert (Neg : ~ negative < positive ->
                sentiment_caps f (positive, negative)
                = (positive, negative + 0.3)
                /\ snd (_analyze_sentiment text f)
                   = positive - (negative + 0.3)).
  { intro N. unfold _analyze_sentiment. rewrite Before.
    unfold sentiment_caps. apply Qltb_lt in Caps. rewrite Caps.
    destruct (Qltb_spec negative positive); [contradiction|].
    split; reflexivity. }
  split; [|split].
  - intro P. unfold _analyze_sentiment. rewrite Before.
    unfold sentiment_caps. apply Qltb_lt in Caps. rewrite Caps.
    apply Qltb_lt in P. rewrite P. split; reflexivity.
  - exact Neg.
  - intro Tie. apply Neg. lra.
Qed.

Lemma caps_tie_favours_negative_witness :
  exists f positive negative,
    _extract_features (str "HELLO WORLD") = Ok f
    /\ 0.1 < caps_ratio f
    /\ sentiment_before_caps f = (positive, negative)
    /\ positive == negative
    /\ sentiment_caps f (positive, negative) = (positive, negative + 0.3)
    /\ snd (_analyze_sentiment (str "HELLO WORLD") f)
       = positive - (negative + 0.3).
Proof.
  eexists. eexists. eexists.
  split; [vm_compute; reflexivity|].
  split; [reflexivity|].
  split; [vm_compute; reflexivity|].
  split; [reflexivity|].
  apply (caps_tie_favours_negative (str "HELLO WORLD")); reflexivity.
Defined.

(** *** Blank input (C4) *)

(** C4: on a text whose [strip()] is empty, [analyze_tone] returns the
    neutral result with zero scores, zero confidence and no features,
    whatever the feature extractor is: it is not run. *)
Theorem blank_input_result (text : pystr) :
  strip text = [] ->
  analyze_tone text
  = Ok {| sentiment := Sentiment.NEUTRAL;
          formality := Formality.NEUTRAL;
          scores := {| score_sentiment := 0.0; score_formality := 0.0 |};
          confidence := 0.0;
          features := None |}
  /\ forall extract : pystr -> result Features,
       analyze_tone_with extract text = analyze_tone text.
Proof.
  intro B.
  assert (T : truthy (strip text) = false) by now rewrite B.
  split.
  - exact (analyze_tone_blank _ text T).
  - intro extract. unfold analyze_tone. now rewrite !analyze_tone_blank.
Qed.

Lemma blank_input_result_witness :
  strip (str "   ") = []
  /\ analyze_tone (str "   ")
     = Ok {| sentiment := Sentiment.NEUTRAL;
             formality := Formality.NEUTRAL;
             scores := {| score_sentiment := 0.0; score_formality := 0.0 |};
             confidence := 0.0;
             features := None |}
  /\ analyze_tone_with (fun _ => Raise ZeroDivisionError) (str "   ")
     = analyze_tone (str "   ").
Proof.
  split; [reflexivity|].
  destruct (blank_input_result (str "   ") eq_refl) as [Result Any].
  split; [exact Result | apply Any].
Defined.

(** *** Monotonicity of the sentiment score (C5) *)

(** C5: of two feature vectors that differ only by a larger
    [positive_word_count], and the [positive_ratio] that goes with it,
    the second has a net sentiment score at least as large. *)
Theorem sentiment_monotone_in_positive_words
  (text : pystr) (f1 f2 : Features) :
  feature_invariant f1 ->
  feature_invariant f2 ->
  f2 = with_positive f1 (positive_word_count f2) (positive_ratio f2) ->
  (positive_word_count f1 < positive_word_count f2)%Z ->
  snd (_analyze_sentiment text f1) <= snd (_analyze_sentiment text f2).
Proof.
  intros I1 I2 Same More. rewrite Same.
  apply sentiment_net_monotone.
  - rewrite (inv_positive_ratio I1), (inv_positive_ratio I2).
    replace (word_count f2) with (word_count f1) by now rewrite Same.
    apply ratio_monotone; lia.
  - rewrite (inv_exclamation_ratio I1).
    apply ratio_nonneg; [apply (inv_exclamation_count I1) | lia].
Qed.

Lemma sentiment_monotone_in_positive_words_witness :
  exists f1 f2,
    _extract_features (str "good xxxx") = Ok f1
    /\ _extract_features (str "good nice") = Ok f2
    /\ f2 = with_positive f1 (positive_word_count f2) (positive_ratio f2)
    /\ (positive_word_count f1 < positive_word_count f2)%Z
    /\ snd (_analyze_sentiment [] f1) <= snd (_analyze_sentiment [] f2).
Proof.
  eexists. eexists.
  split; [vm_compute; reflexivity|].
  split; [vm_compute; reflexivity|].
  split; [reflexivity|].
  split; [reflexivity|].
  apply sentiment_monotone_in_positive_words.
  - apply (extracted_invariant (str "good xxxx")). vm_compute. reflexivity.
  - apply (extracted_invariant (str "good nice")). vm_compute. reflexivity.
  - reflexivity.
  - reflexivity.
Defined.

(** *** The feature vector (C6) *)

(** C6: extraction returns a vector whose counts are not negative and
    whose ratios are counts over denominators floored at 1; the ratios
    over the word count lie in [[0, 1]]; [exclamation_ratio] is not
    negative and exceeds 1 on some text. *)
Theorem features_within_bounds :
  (forall text : pystr,
      exists f,
        _extract_features text = Ok f
        /\ feature_invariant f
        /\ avg_word_length f
           = floored_ratio
               (PyNum.sum (map len (word_pattern (lower text))))
               (word_count f)
        /\ 0 <= positive_ratio f <= 1
        /\ 0 <= negative_ratio f <= 1
        /\ 0 <= formal_ratio f <= 1
        /\ 0 <= casual_ratio f <= 1
        /\ 0 <= contraction_ratio f <= 1
        /\ 0 <= caps_ratio f <= 1
        /\ 0 <= exclamation_ratio f)
  /\ (exists f,
        _extract_features (str "!a!") = Ok f /\ 1 < exclamation_ratio f).
Proof.
  split.
  - intro text. destruct (_extract_features_total text) as [f E].
    exists f. split; [exact E|].
    pose proof (extracted_invariant text E) as I.
    pose proof (extracted_word_count text E) as W.
    pose proof (extracted_lexicon_counts text E) as (P & N & F & C).
    pose proof (extracted_contraction_count text E) as K.
    pose proof (extracted_caps_words text E) as U.
    pose proof (contractions_le_words text) as KW.
    pose proof (caps_words_le_words text) as UW.
    pose proof (count_in_le positive_words (word_pattern (lower text))).
    pose proof (count_in_le negative_words (word_pattern (lower text))).
    pose proof (count_in_le formal_words (word_pattern (lower text))).
    pose proof (count_in_le casual_words (word_pattern (lower text))).
    pose proof (inv_contraction_count I).
    pose proof (inv_caps_words I).
    split; [exact I|].
    split; [rewrite W; exact (extracted_avg_word_length text E)|].
    rewrite (inv_positive_ratio I), (inv_negative_ratio I),
      (inv_formal_ratio I), (inv_casual_ratio I),
      (inv_contraction_ratio I), (inv_caps_ratio I),
      (inv_exclamation_ratio I).
    unfold floored_ratio.
    repeat split; try (apply ratio_bounds; lia).
    all: apply ratio_nonneg; [apply (inv_exclamation_count I) | lia].
  - eexists. split; [vm_compute; reflexivity|]. reflexivity.
Qed.

(** *** The batch endpoint (C7) *)

(** C7: in a batch of at most ten texts every text gets its entry, at
    its own position: a blank text the skipped placeholder with the
    reason "Empty text", any other text the result of [analyze_tone]. *)
Theorem batch_entries (texts : list pystr) (i : nat) (text : pystr) :
  (len texts <= 10)%Z ->
  nth_error texts i = Some text ->
  exists response item,
    analyze_tone_batch texts = Response response
    /\ List.length (results response) = List.length texts
    /\ nth_error (results response) i = Some item
    /\ if truthy (strip text) then
         exists analysis,
           analyze_tone text = Ok analysis
           /\ item
              = {| item_text := text;
                   item_labels :=
                     {| label_sentiment :=
                          Sentiment.value (sentiment analysis);
                        label_formality :=
                          Formality.value (formality analysis) |};
                   item_scores := scores analysis;
                   item_confidence := confidence analysis;
                   skipped := false;
                   reason := None |}
       else
         item
         = {| item_text := text;
              item_labels := {| label_sentiment := "neutral";
                                label_formality := "neutral" |};
              item_scores := {| score_sentiment := 0.0;
                                score_formality := 0.0 |};
              item_confidence := 0.0;
              skipped := true;
              reason := Some "Empty text"%string |}.
Proof.
  intros L At.
  assert (NE : texts <> []) by (intros ->; destruct i; discriminate).
  destruct (analyze_tone_batch_response NE L) as (response & E & R).
  exists response, (batch_entry text).
  split; [exact E|]. rewrite R.
  split; [apply length_map|].
  split; [now rewrite nth_error_map, At|].
  destruct (truthy (strip text)) eqn:B.
  - exact (batch_entry_nonblank text B).
  - exact (batch_entry_blank text B).
Qed.

Lemma batch_entries_witness :
  (len [str ""; str "great job"] <= 10)%Z
  /\ exists response skipped_one analysed_one,
       analyze_tone_batch [str ""; str "great job"] = Response response
       /\ nth_error (results response) 0 = Some skipped_one
       /\ skipped skipped_one = true
       /\ reason skipped_one = Some "Empty text"%string
       /\ nth_error (results response) 1 = Some analysed_one
       /\ skipped analysed_one = false
       /\ label_sentiment (item_labels analysed_one) = "positive"%string.
Proof.
  assert (L : (len [str ""; str "great job"] <= 10)%Z)
    by (vm_compute; discriminate).
  split; [exact L|].
  destruct (batch_entries [str ""; str "great job"] 0 L eq_refl)
    as (response & item0 & E & _ & At0 & Is0).
  destruct (batch_entries [str ""; str "great job"] 1 L eq_refl)
    as (response' & item1 & E' & _ & At1 & analysis & A & Is1).
  cbn [truthy strip str list_ascii_of_string dropWhile rev] in Is0.
  rewrite E in E'. injection E' as <-.
  exists response, item0, item1.
  split; [exact E|]. split; [exact At0|].
  split; [now rewrite Is0|]. split; [now rewrite Is0|].
  split; [exact At1|]. split; [now rewrite Is1|].
  rewrite Is1. cbn [item_labels label_sentiment].
  vm_compute in A. injection A as <-. reflexivity.
Defined.

(** *** The health-check sample (C8) *)

(** C8: the sample text of [health_check] is analysed as positive with
    a confidence above 0.3, so that [test_passed] holds. *)
Theorem health_check_sample :
  exists analysis,
    analyze_tone (str "I'm really excited about this amazing opportunity!")
    = Ok analysis
    /\ sentiment analysis = Sentiment.POSITIVE
    /\ 0.3 < confidence analysis
    /\ test_passed analysis = true.
Proof.
  eexists. split; [vm_compute; reflexivity|].
  repeat split.
Qed.

(** *** Totality (C9) *)

(** C9: [analyze_tone] returns on every text, and so does each stage:
    extraction on every text, the formality scorer on every feature
    vector (the other stages have no raising operation).  The result
    has a confidence in [[0, 1]], and carries the feature vector exactly
    when the text is not blank. *)
Theorem analyze_tone_never_fails :
  (forall text : pystr, exists f, _extract_features text = Ok f)
  /\ (forall (text : pystr) (f : Features),
        exists fo, _analyze_formality text f = Ok fo)
  /\ (forall text : pystr,
        exists analysis,
          analyze_tone text = Ok analysis
          /\ 0 <= confidence analysis <= 1
          /\ match features analysis with
             | Some f => _extract_features text = Ok f
             | None => strip text = []
             end).
Proof.
  split; [exact _extract_features_total|].
  split; [exact _analyze_formality_total|].
  intro text. destruct (truthy (strip text)) eqn:B.
  - destruct (analyze_tone_nonblank text B) as (f & fo & X & _ & E).
    eexists. split; [exact E|]. cbn [confidence features].
    pose proof (confidence_clamped f (snd (_analyze_sentiment text f))
                  (snd fo)) as C.
    split; [lra | exact X].
  - exists blank_analysis. split; [now apply analyze_tone_blank|].
    cbn [confidence features blank_analysis]. split; [lra|].
    destruct (strip text); [reflexivity | discriminate].
Qed.

(** *** The contraction lexicon (C10) *)

Lemma lowered_never_capitalized (w : pystr) :
  mem (lower w) capitalized_contractions = false.
Proof.
  destruct (mem (lower w) capitalized_contractions) eqn:M; [|reflexivity].
  apply mem_In in M. exfalso.
  destruct w as [|c w]; cbn in M; [intuition discriminate|].
  pose proof (lower_char_not_AZ c) as L.
  repeat destruct M as [M|M]; try contradiction;
    injection M as M _; rewrite <- M in L; discriminate.
Qed.

(** C10: [contraction_count] counts the whitespace-separated tokens
    whose lowercased form is an entry of the contraction lexicon.  The
    entries I'm, I've, I'd and I'll are stored with their capital, no
    lowercased token equals one of them, the tokens that read so are
    not counted, and the count is the one that the lexicon without
    these four entries gives. *)
Theorem capitalized_contractions_never_match (text : pystr) :
  exists f,
    _extract_features text = Ok f
    /\ contraction_count f
       = len (filter (fun w => mem (lower w) contractions) (split text))
    /\ incl capitalized_contractions contractions
    /\ (forall w, mem (lower w) capitalized_contractions = false)
    /\ (forall w, In (lower w) lowercased_I_forms ->
                  mem (lower w) contractions = false)
    /\ contraction_count f
       = len (filter (fun w => mem (lower w) lowercase_contractions)
                     (split text)).
Proof.
  destruct (_extract_features_total text) as [f E]. exists f.
  split; [exact E|].
  split; [exact (extracted_contraction_count text E)|].
  split.
  { intros w I. apply mem_In.
    repeat destruct I as [<-|I]; try contradiction; reflexivity. }
  split; [exact lowered_never_capitalized|].
  split.
  { intros w I.
    repeat destruct I as [<-|I]; try contradiction; reflexivity. }
  rewrite (extracted_contraction_count text E). f_equal.
  apply filter_ext. intro w. unfold lowercase_contractions.
  symmetry. apply mem_filter_out. apply lowered_never_capitalized.
Qed.

Lemma capitalized_contractions_never_match_witness :
  exists f,
    _extract_features (str "I'm sure I'll go") = Ok f
    /\ contraction_count f = 0%Z
    /\ mem (lower (str "I'm")) contractions = false.
Proof.
  destruct (capitalized_contractions_never_match (str "I'm sure I'll go"))
    as (f & E & Count & _ & _ & Lowered & _).
  exists f. split; [exact E|]. split; [rewrite Count; reflexivity|].
  apply Lowered. left. reflexivity.
Defined.

End Properties.

(** * More properties of the code *)

Module TextFacts.

Import PyStr PyStrFacts ToneAnalysisService.

(** *** More facts checked on each of the 256 characters *)

Lemma word_not_terminator (c : ascii) : is_word c && is_terminator c = false.
Proof. each_char c. Qed.

Lemma lower_char_idempotent (c : ascii) :
  lower_char (lower_char c) = lower_char c.
Proof. each_char c. Qed.

Lemma lower_char_space (c : ascii) : isspace (lower_char c) = isspace c.
Proof. each_char c. Qed.

(** *** Pieces, runs and the characters they hold *)

Lemma runs_holds (p : ascii -> bool) (t : pystr) :
  runs p t <> [] -> exists c, In c t /\ p c = true.
Proof.
  induction t as [|c t IH]; [intro H; now contradiction H|].
  destruct (p c) eqn:Pc.
  - intros _. exists c. split; [now left | exact Pc].
  - rewrite (runs_skip p) by exact Pc. intro H.
    destruct (IH H) as (x & I & Px). exists x. split; [now right | exact Px].
Qed.

Lemma dropWhile_keeps (p : ascii -> bool) (c : ascii) (t : pystr) :
  In c t -> p c = false -> In c (dropWhile p t).
Proof.
  intros I Pc. induction t as [|x t IH]; [contradiction|].
  simpl. destruct (p x) eqn:Px; [|exact I].
  destruct I as [->|I]; [congruence | now apply IH].
Qed.

(** [strip] only removes whitespace. *)
Lemma strip_keeps (c : ascii) (t : pystr) :
  In c t -> isspace c = false -> In c (strip t).
Proof.
  intros I S. unfold strip. apply -> in_rev.
  apply dropWhile_keeps; [|exact S]. apply -> in_rev.
  now apply dropWhile_keeps.
Qed.

Lemma strip_truthy (c : ascii) (t : pystr) :
  In c t -> isspace c = false -> truthy (strip t) = true.
Proof.
  intros I S. pose proof (@strip_keeps c t I S) as K.
  destruct (strip t); [contradiction | reflexivity].
Qed.

(** A character that is not a separator lies in a piece of the split. *)
Lemma re_split_covers (sep : ascii -> bool) (c : ascii) (t : pystr) (b : bool) :
  In c t -> sep c = false ->
  exists piece, In piece (re_split_from sep b t) /\ In c piece.
Proof.
  intros I S. revert b. induction t as [|x t IH]; [contradiction|].
  intro b. cbn [re_split_from].
  destruct I as [->|I].
  - rewrite S. destruct (re_split_from sep false t) as [|piece rest].
    + exists [c]. split; now left.
    + exists (c :: piece). split; now left.
  - destruct (sep x).
    + destruct (IH I true) as (piece & P & C).
      exists piece. split; [|exact C].
      destruct b; [exact P | now right].
    + destruct (IH I false) as (piece & P & C).
      destruct (re_split_from sep false t) as [|piece0 rest];
        [contradiction|].
      destruct P as [->|P].
      * exists (x :: piece). split; [now left | now right].
      * exists piece. split; [now right | exact C].
Qed.

Lemma len_filter_positive {A : Type} (f : A -> bool) (x : A) (l : list A) :
  In x l -> f x = true -> (0 < len (filter f l))%Z.
Proof.
  intros I F. assert (K : In x (filter f l)) by now apply filter_In.
  unfold len. destruct (filter f l); [contradiction | simpl; lia].
Qed.

(** A text that holds a word holds a sentence. *)
Lemma words_need_a_sentence (text : pystr) :
  (0 < len (word_pattern (lower text)))%Z ->
  (0 < len (filter (fun s => truthy (strip s))
                   (re_split is_terminator text)))%Z.
Proof.
  intro W.
  assert (NE : word_pattern (lower text) <> []).
  { intro E. rewrite E in W. cbn in W. lia. }
  destruct (@runs_holds _ _ NE) as (c' & I & Wc).
  unfold lower in I. apply in_map_iff in I. destruct I as (c & <- & I).
  rewrite lower_char_word in Wc.
  pose proof (word_not_space c) as NS. pose proof (word_not_terminator c) as NT.
  rewrite Wc in NS, NT. cbn in NS, NT.
  destruct (@re_split_covers is_terminator c text false I NT)
    as (piece & P & C).
  apply len_filter_positive with (x := piece); [exact P|].
  now apply strip_truthy with (c := c).
Qed.

(** Lowercasing twice is lowercasing once, and it keeps the tokens. *)
Lemma lower_idempotent (t : pystr) : lower (lower t) = lower t.
Proof.
  unfold lower. rewrite map_map. apply map_ext. apply lower_char_idempotent.
Qed.

Lemma split_lower (t : pystr) : split (lower t) = map lower (split t).
Proof.
  unfold split, lower. rewrite runs_map.
  rewrite (runs_ext _ (fun c => negb (isspace c))); [reflexivity|].
  intro c. now rewrite lower_char_space.
Qed.

End TextFacts.

Module CountFacts.

Import PyNum PyNumFacts PyStr PyStrFacts ToneAnalysisService Spec.
Import ExtractFacts SpecMore.

(** *** Lexicons that share no word *)

Lemma disjoint_checked (A B : list pystr) :
  forallb (fun w => negb (mem w B)) A = true ->
  forall w, mem w A = true -> mem w B = false.
Proof.
  intros H w M. apply mem_In in M.
  rewrite forallb_forall in H. apply H in M. now apply negb_true_iff.
Qed.

Lemma positive_negative_disjoint (w : pystr) :
  mem w positive_words = true -> mem w negative_words = false.
Proof. apply disjoint_checked. vm_compute. reflexivity. Qed.

Lemma formal_casual_disjoint (w : pystr) :
  mem w formal_words = true -> mem w casual_words = false.
Proof. apply disjoint_checked. vm_compute. reflexivity. Qed.

Lemma count_in_disjoint (A B words : list pystr) :
  (forall w, mem w A = true -> mem w B = false) ->
  (count_in A words + count_in B words <= len words)%Z.
Proof.
  intro D. unfold count_in, len.
  rewrite <- Nat2Z.inj_add. apply inj_le.
  induction words as [|w ws IH]; simpl; [lia|].
  destruct (mem w A) eqn:MA.
  - rewrite (D w MA). simpl. lia.
  - destruct (mem w B); simpl; lia.
Qed.

(** *** Words token by token *)

Lemma filter_map_swap {A B : Type} (f : B -> bool) (g : A -> B) (l : list A) :
  List.length (filter f (map g l))
  = List.length (filter (fun x => f (g x)) l).
Proof.
  induction l as [|x l IH]; simpl; [reflexivity|].
  destruct (f (g x)); simpl; now rewrite IH.
Qed.

(** When every selected piece holds exactly two runs, none of them
    marked, the marked runs and twice the selected pieces fit in the
    runs. *)
Lemma marked_and_selected_le_runs (p : ascii -> bool)
  (sel mark : pystr -> bool) (pieces : list pystr) :
  (forall w, sel w = true ->
             List.length (runs p w) = 2%nat
             /\ List.length (filter mark (runs p w)) = 0%nat) ->
  (List.length (filter mark (List.concat (map (runs p) pieces)))
   + 2 * List.length (filter sel pieces)
   <= List.length (List.concat (map (runs p) pieces)))%nat.
Proof.
  intro H. induction pieces as [|w ws IH]; simpl; [lia|].
  rewrite filter_app, !length_app.
  pose proof (filter_length_le mark (runs p w)) as L.
  destruct (sel w) eqn:S; simpl; [|lia].
  destruct (H w S) as [Two None]. lia.
Qed.

(** The words of a lowercased text, found without lowercasing first. *)
Lemma word_pattern_lower (t : pystr) :
  word_pattern (lower t) = map lower (runs lowered_word t).
Proof. unfold word_pattern, lower. now rewrite runs_map. Qed.

Lemma contraction_is_two_plain_words (w : pystr) :
  mem w contractions = true ->
  List.length (word_pattern w) = 2%nat
  /\ List.length (filter (fun x => mem x casual_words) (word_pattern w))
     = 0%nat.
Proof.
  intro M. apply mem_In in M.
  assert (A : forallb
                (fun w =>
                   (List.length (word_pattern w) =? 2)%nat
                   && (List.length (filter (fun x => mem x casual_words)
                                           (word_pattern w)) =? 0)%nat)
                contractions = true) by (vm_compute; reflexivity).
  rewrite forallb_forall in A. specialize (A w M).
  apply andb_true_iff in A. now rewrite !Nat.eqb_eq in A.
Qed.

(** Casual words and contractions share the words of a text: every
    contraction takes two words, neither of them casual. *)
Lemma casual_and_contractions_le_words (text : pystr) :
  (count_in casual_words (word_pattern (lower text))
   + 2 * len (filter (fun w => mem (lower w) contractions) (split text))
   <= len (word_pattern (lower text)))%Z.
Proof.
  rewrite word_pattern_lower. unfold count_in, len.
  rewrite filter_map_swap, length_map.
  rewrite (runs_refine lowered_word (fun c => negb (isspace c)) text)
    by apply lower_char_word_not_space.
  unfold split.
  pose proof (@marked_and_selected_le_runs lowered_word
                (fun w => mem (lower w) contractions)
                (fun x => mem (lower x) casual_words)
                (runs (fun c => negb (isspace c)) text)) as K.
  lapply K; [lia|].
  intros w M. apply contraction_is_two_plain_words in M.
  rewrite word_pattern_lower, filter_map_swap, length_map in M. exact M.
Qed.

Lemma twice_contractions_le_words (text : pystr) :
  (2 * len (filter (fun w => mem (lower w) contractions) (split text))
   <= len (word_pattern (lower text)))%Z.
Proof.
  pose proof (casual_and_contractions_le_words text) as K.
  pose proof (count_in_le casual_words (word_pattern (lower text))). lia.
Qed.

End CountFacts.

Module FeatureFacts.

Import PyNum PyNumFacts PyStr PyStrFacts ToneAnalysisService Spec SpecMore.
Import ScorerFacts ExtractFacts AnalyzerFacts TextFacts CountFacts.
Local Open Scope Q_scope.

Lemma extracted_sentence_count (text : pystr) (f : Features) :
  _extract_features text = Ok f ->
  sentence_count f
  = len (filter (fun s => truthy (strip s)) (re_split is_terminator text)).
Proof. intro H. extracted H. reflexivity. Qed.

Lemma extracted_counts_fit (text : pystr) (f : Features) :
  _extract_features text = Ok f -> counts_fit f.
Proof.
  intro E.
  pose proof (extracted_word_count text E) as W.
  pose proof (extracted_lexicon_counts text E) as (P & N & F & C).
  pose proof (extracted_contraction_count text E) as K.
  pose proof (extracted_caps_words text E) as U.
  pose proof (extracted_sentence_count text E) as S.
  constructor; rewrite ?W, ?P, ?N, ?F, ?C, ?K, ?U, ?S.
  - apply count_in_disjoint, positive_negative_disjoint.
  - apply count_in_disjoint, formal_casual_disjoint.
  - apply casual_and_contractions_le_words.
  - apply caps_words_le_words.
  - apply words_need_a_sentence.
Qed.

(** *** Ratios *)

Lemma ratio_sum (a b : Z) (k : Z) (w : Z) :
  (0 <= a)%Z -> (0 <= b)%Z -> (0 <= k)%Z -> (a + k * b <= w)%Z -> (1 <= w)%Z ->
  inject_Z a / inject_Z w + inject_Z k * (inject_Z b / inject_Z w) <= 1.
Proof.
  intros A B K L W.
  assert (E : inject_Z a / inject_Z w + inject_Z k * (inject_Z b / inject_Z w)
              == inject_Z (a + k * b) / inject_Z w).
  { rewrite inject_Z_plus, inject_Z_mult. unfold Qdiv. ring. }
  rewrite E. apply ratio_bounds; nia.
Qed.

Lemma floored_ratio_zero (w : Z) : floored_ratio 0 w == 0.
Proof. unfold floored_ratio, Qdiv. apply Qmult_0_l. Qed.

Lemma fitting_ratios (f : Features) :
  feature_invariant f -> counts_fit f -> ratios_fit f.
Proof.
  intros I C.
  pose proof (inv_word_count I). pose proof (inv_positive_word_count I).
  pose proof (inv_negative_word_count I). pose proof (inv_formal_word_count I).
  pose proof (inv_casual_word_count I). pose proof (inv_contraction_count I).
  pose proof (inv_caps_words I). pose proof (inv_exclamation_count I).
  pose proof (fit_positive_negative C). pose proof (fit_formal_casual C).
  pose proof (fit_casual_contractions C). pose proof (fit_caps C).
  constructor;
    rewrite ?(inv_positive_ratio I), ?(inv_negative_ratio I),
      ?(inv_formal_ratio I), ?(inv_casual_ratio I),
      ?(inv_contraction_ratio I), ?(inv_caps_ratio I),
      ?(inv_exclamation_ratio I);
    unfold floored_ratio;
    try (apply ratio_nonneg; lia);
    try (apply ratio_bounds; lia).
  - pose proof (@ratio_sum (positive_word_count f) (negative_word_count f) 1
                  (Z.max (word_count f) 1)) as R.
    change (inject_Z 1) with 1 in R. rewrite Qmult_1_l in R. apply R; lia.
  - pose proof (@ratio_sum (formal_word_count f) (casual_word_count f) 1
                  (Z.max (word_count f) 1)) as R.
    change (inject_Z 1) with 1 in R. rewrite Qmult_1_l in R. apply R; lia.
  - apply (@ratio_sum (casual_word_count f) (contraction_count f) 2
             (Z.max (word_count f) 1)); lia.
Qed.

Lemma extracted_ratios_fit (text : pystr) (f : Features) :
  _extract_features text = Ok f -> ratios_fit f.
Proof.
  intro E. apply fitting_ratios.
  - exact (extracted_invariant text E).
  - exact (extracted_counts_fit text E).
Qed.

End FeatureFacts.

Module ScoreFacts.

Import PyNum PyNumFacts PyStr PyStrFacts ToneAnalysisService Spec SpecMore.
Import ScorerFacts ExtractFacts AnalyzerFacts TextFacts CountFacts FeatureFacts.
Local Open Scope Q_scope.

(** What [analyze_tone] returned, read back from a result that carries a
    feature vector. *)
Lemma analyze_tone_inversion (text : pystr) (analysis : ToneAnalysis)
  (f : Features) :
  analyze_tone text = Ok analysis ->
  features analysis = Some f ->
  _extract_features text = Ok f
  /\ sentiment analysis = fst (_analyze_sentiment text f)
  /\ score_sentiment (scores analysis) = snd (_analyze_sentiment text f)
  /\ exists fo,
       _analyze_formality text f = Ok fo
       /\ formality analysis = fst fo
       /\ score_formality (scores analysis) = snd fo
       /\ confidence analysis
          = _calculate_confidence f (snd (_analyze_sentiment text f)) (snd fo).
Proof.
  intros A F. destruct (truthy (strip text)) eqn:B.
  - destruct (analyze_tone_nonblank text B) as (f' & fo & X & Y & E).
    rewrite E in A. injection A as <-. cbn in F. injection F as <-.
    split; [exact X|]. split; [reflexivity|]. split; [reflexivity|].
    exists fo. repeat split. exact Y.
  - unfold analyze_tone in A. rewrite (analyze_tone_blank _ text B) in A.
    injection A as <-. discriminate.
Qed.

Lemma blank_has_no_features (text : pystr) (analysis : ToneAnalysis) :
  analyze_tone text = Ok analysis ->
  features analysis = None -> analysis = blank_analysis.
Proof.
  intros A F. destruct (truthy (strip text)) eqn:B.
  - destruct (analyze_tone_nonblank text B) as (f' & fo & X & Y & E).
    rewrite E in A. injection A as <-. discriminate.
  - unfold analyze_tone in A. rewrite (analyze_tone_blank _ text B) in A.
    now injection A as <-.
Qed.

(** *** The formality score *)

Lemma formality_sentence_length_step (f : Features) (formal casual : Q)
  (after : Q * Q) :
  formality_sentence_length f (formal, casual) = Ok after ->
  (fst after == formal /\ snd after == casual)
  \/ (fst after == formal + 0.4 /\ snd after == casual)
  \/ (fst after == formal /\ snd after == casual + 0.3).
Proof.
  unfold formality_sentence_length.
  destruct (Z.ltb_spec 0 (word_count f)); cbn [andb].
  2:{ intro E. injection E as <-. left. split; reflexivity. }
  destruct (Z.ltb_spec 0 (sentence_count f)).
  2:{ intro E. injection E as <-. left. split; reflexivity. }
  rewrite div_positive by assumption. cbn [bind].
  split_comparisons; intro E; injection E as <-; cbn [fst snd].
  - right. left. split; reflexivity.
  - right. right. split; reflexivity.
  - left. split; reflexivity.
Qed.

Lemma formality_score_within (text : pystr) (f : Features)
  (fo : Formality.t * Q) :
  ratios_fit f ->
  _analyze_formality text f = Ok fo ->
  - 3.4 <= snd fo <= 3.9.
Proof.
  intros R. unfold _analyze_formality.
  destruct (formality_before_sentence_length f) as [formal casual] eqn:B.
  destruct (formality_sentence_length f (formal, casual))
    as [[formal' casual']|] eqn:S; cbn [bind]; [|discriminate].
  intro E. injection E as <-. cbn [snd].
  apply formality_sentence_length_step in S. cbn [fst snd] in S.
  pose proof (fit_formal R). pose proof (fit_casual R).
  pose proof (fit_contraction R). pose proof (fit_casual_contraction R).
  revert B.
  unfold formality_before_sentence_length, formality_word_length,
    formality_punctuation, formality_contractions, formality_base.
  split_comparisons; intro B; injection B as <- <-; lra.
Qed.

(** *** The sentiment score *)

Lemma sentiment_score_within (text : pystr) (f : Features) :
  ratios_fit f ->
  - (2.3 + 0.5 * exclamation_ratio f)
  <= snd (_analyze_sentiment text f)
  <= 2.5 + 0.5 * exclamation_ratio f.
Proof.
  intro R.
  pose proof (fit_positive R). pose proof (fit_negative R).
  pose proof (fit_polarity R). pose proof (fit_exclamation R).
  unfold _analyze_sentiment, sentiment_before_caps, sentiment_caps,
    sentiment_emoticons, sentiment_exclamations, sentiment_base.
  split_comparisons; cbn [snd]; lra.
Qed.

Lemma sentiment_without_charge (text : pystr) (f : Features) :
  positive_ratio f == 0 -> negative_ratio f == 0 ->
  (caps_ratio f <= 0.1 ->
   fst (_analyze_sentiment text f) = Sentiment.NEUTRAL
   /\ 0 <= snd (_analyze_sentiment text f) <= 0.2)
  /\ (0.1 < caps_ratio f -> (emoticon_count f <= 0)%Z ->
      fst (_analyze_sentiment text f) = Sentiment.NEGATIVE
      /\ snd (_analyze_sentiment text f) == - 0.3)
  /\ (0.1 < caps_ratio f -> (0 < emoticon_count f)%Z ->
      fst (_analyze_sentiment text f) = Sentiment.POSITIVE
      /\ snd (_analyze_sentiment text f) == 0.5).
Proof.
  intros P N.
  unfold _analyze_sentiment, sentiment_before_caps, sentiment_caps,
    sentiment_emoticons, sentiment_exclamations, sentiment_base,
    sentiment_category.
  split; [|split]; intros;
    split_comparisons; cbn [fst snd]; split_comparisons;
    try (exfalso; lra); try (exfalso; lia);
    (split; [reflexivity | lra]).
Qed.

Lemma sentiment_net_antitone (text : pystr) (f : Features) (c : Z) (r : Q) :
  negative_ratio f <= r ->
  0 <= exclamation_ratio f ->
  snd (_analyze_sentiment text (with_negative f c r))
  <= snd (_analyze_sentiment text f).
Proof.
  intros Hr He.
  unfold _analyze_sentiment, sentiment_before_caps, sentiment_caps,
    sentiment_emoticons, sentiment_exclamations, sentiment_base.
  simpl.
  split_comparisons; simpl; split_comparisons; simpl; lra.
Qed.

(** *** Confidence *)

Lemma confidence_of_long_text (f : Features) (s_score f_score : Q) :
  (50 <= word_count f)%Z ->
  0.6 <= _calculate_confidence f s_score f_score.
Proof.
  intro W. unfold _calculate_confidence.
  assert (H : 50 <= inject_Z (word_count f)).
  { change 50 with (inject_Z 50). now rewrite <- Zle_Qle. }
  assert (L : 1 <= inject_Z (word_count f) / 50.0).
  { apply Qle_shift_div_l; lra. }
  pose proof (Qabs_nonneg s_score). pose proof (Qabs_nonneg f_score).
  set (length_confidence := PyNum.min (inject_Z (word_count f) / 50.0) 1.0).
  assert (One : length_confidence == 1).
  { unfold length_confidence, PyNum.min.
    destruct (Qltb_spec 1.0 (inject_Z (word_count f) / 50.0)); lra. }
  set (overall := length_confidence * 0.6
                  + (Qabs s_score + Qabs f_score) / 2.0 * 0.4).
  assert (O : 0.6 <= overall).
  { unfold overall, Qdiv. rewrite One. change (/ 2.0) with (10 # 20). lra. }
  destruct (py_max_spec overall 0.1) as (M & _ & _).
  unfold PyNum.min. destruct (Qltb_spec 1.0 (PyNum.max overall 0.1)); lra.
Qed.

End ScoreFacts.

Module EndpointFacts.

Import PyNum PyNumFacts PyStr PyStrFacts ToneAnalysisService Spec SpecMore.
Import ScorerFacts ExtractFacts AnalyzerFacts Router RouterFacts ScoreFacts.
Local Open Scope Q_scope.

Lemma analysed_confidence (text : pystr) (analysis : ToneAnalysis) :
  nonblank text = true ->
  analyze_tone text = Ok analysis ->
  0.1 <= confidence analysis <= 1.0.
Proof.
  intros B A.
  destruct (analyze_tone_nonblank text B) as (f & fo & _ & _ & E).
  rewrite E in A. injection A as <-. apply confidence_clamped.
Qed.

Lemma len_cons {A : Type} (x : A) (l : list A) : len (x :: l) = (len l + 1)%Z.
Proof. unfold len. cbn [List.length]. lia. Qed.

(** The counters of the batch loop: the texts that are not blank are
    counted, and each adds a confidence between 0.1 and 1. *)
Lemma batch_loop_totals (texts : list pystr) (st : loop) :
  let st' := fold_left batch_step texts st in
  let n := len (filter nonblank texts) in
  processed_count st' = (processed_count st + n)%Z
  /\ total_confidence st + 0.1 * inject_Z n <= total_confidence st'
  /\ total_confidence st' <= total_confidence st + inject_Z n.
Proof.
  revert st. induction texts as [|text texts IH]; intro st.
  - cbv zeta. cbn [fold_left filter]. change (len (@nil pystr)) with 0%Z.
    change (inject_Z 0) with 0. split; [lia|]. split; lra.
  - cbn [fold_left filter]. specialize (IH (batch_step st text)).
    cbv zeta in IH |- *. destruct IH as (C & Lo & Hi). revert C Lo Hi.
    unfold batch_step. change (truthy (strip text)) with (nonblank text).
    destruct (nonblank text) eqn:B; cbn [negb].
    + destruct (analyze_tone_total text) as [analysis A]. rewrite A.
      cbn [processed_count total_confidence]. intros C Lo Hi.
      pose proof (analysed_confidence text B A) as K.
      rewrite len_cons, inject_Z_plus. change (inject_Z 1) with 1.
      split; [lia|]. split; lra.
    + cbn [processed_count total_confidence]. intros C Lo Hi.
      split; [exact C|]. split; assumption.
Qed.

Lemma batch_entry_skipped (text : pystr) :
  skipped (batch_entry text) = negb (nonblank text).
Proof.
  unfold nonblank. destruct (truthy (strip text)) eqn:B.
  - destruct (batch_entry_nonblank text B) as (analysis & _ & ->).
    reflexivity.
  - now rewrite (batch_entry_blank text B).
Qed.

Lemma batch_skipped_entries (texts : list pystr) :
  (len (filter skipped (map batch_entry texts))
   = len texts - len (filter nonblank texts))%Z.
Proof.
  induction texts as [|text texts IH]; [reflexivity|].
  cbn [map filter]. rewrite batch_entry_skipped.
  destruct (nonblank text); cbn [negb]; rewrite !len_cons; lia.
Qed.

(** What a batch response was built from. *)
Lemma analyze_tone_batch_inversion (texts : list pystr)
  (response : BatchResponse) :
  analyze_tone_batch texts = Response response ->
  let st := fold_left batch_step texts batch_start in
  texts <> [] /\ (len texts <= 10)%Z
  /\ results response = map batch_entry texts
  /\ total_texts response = len texts
  /\ successful_analyses response = processed_count st
  /\ average_confidence response
     = total_confidence st / inject_Z (Z.max (processed_count st) 1).
Proof.
  unfold analyze_tone_batch. destruct texts as [|t ts]; [discriminate|].
  destruct (Z.ltb_spec 10 (len (t :: ts))); [discriminate|].
  set (st := fold_left batch_step (t :: ts) batch_start).
  rewrite div_floored. intro E. injection E as <-.
  cbn [results total_texts successful_analyses average_confidence].
  split; [discriminate|]. split; [assumption|].
  split; [unfold st; rewrite batch_loop_results; reflexivity|].
  repeat split.
Qed.

End EndpointFacts.

Module AuthFacts.

Import PyStr PyStrFacts Router Main.

Lemma startswith_prefix (s prefix : pystr) :
  startswith s prefix = true <-> exists rest, s = prefix ++ rest.
Proof.
  revert s. induction prefix as [|p prefix IH]; intro s.
  - simpl. split; [intros _; now exists s | reflexivity].
  - destruct s as [|c s]; simpl.
    + split; [discriminate | intros (rest & E); discriminate].
    + rewrite andb_true_iff, Ascii.eqb_eq, IH. split.
      * intros (-> & rest & ->). now exists rest.
      * intros (rest & E). injection E as -> ->. split; [reflexivity|].
        now exists rest.
Qed.

Lemma eqb_refl (a : pystr) : eqb a a = true.
Proof. now apply eqb_eq. Qed.

Lemma eqb_neq (a b : pystr) : a <> b -> eqb a b = false.
Proof.
  intro N. destruct (eqb a b) eqn:E; [|reflexivity].
  apply eqb_eq in E. contradiction.
Qed.

End AuthFacts.

Module CodeProperties.

Import PyNum PyNumFacts PyStr PyStrFacts ToneAnalysisService Spec SpecMore.
Import ScorerFacts ExtractFacts AnalyzerFacts TextFacts CountFacts.
Import FeatureFacts ScoreFacts.
Local Open Scope Q_scope.

(** *** Feature extraction *)

Lemma formality_sentence_length_applied (f : Features) (before : Q * Q) :
  (0 < word_count f)%Z -> (0 < sentence_count f)%Z ->
  exists after,
    formality_sentence_length f before = Ok after
    /\ sentence_length_adjusted f before after.
Proof.
  intros W S. destruct before as [formal casual].
  unfold formality_sentence_length, sentence_length_adjusted.
  rewrite (proj2 (Z.ltb_lt _ _) W), (proj2 (Z.ltb_lt _ _) S). cbn [andb].
  rewrite div_positive by exact S. cbn [bind].
  split_comparisons; eexists; (split; [reflexivity|]); cbn [fst snd];
    split; reflexivity.
Qed.

(** X1: a text with at least one word has at least one sentence, so the
    sentence-length adjustment of the formality scorer is applied to
    every text that has a word. *)
Theorem text_with_words_has_sentences
  (text : pystr) (f : Features) (before : Q * Q) :
  _extract_features text = Ok f ->
  (0 < word_count f)%Z ->
  (0 < sentence_count f)%Z
  /\ exists after,
       formality_sentence_length f before = Ok after
       /\ sentence_length_adjusted f before after.
Proof.
  intros E W.
  pose proof (fit_sentences (extracted_counts_fit text E) W) as S.
  split; [exact S|]. now apply formality_sentence_length_applied.
Qed.

Lemma text_with_words_has_sentences_witness :
  exists f,
    _extract_features (str "great job") = Ok f
    /\ (0 < word_count f)%Z
    /\ (0 < sentence_count f)%Z
    /\ exists after,
         formality_sentence_length f (0, 0) = Ok after
         /\ sentence_length_adjusted f (0, 0) after.
Proof.
  eexists. split; [vm_compute; reflexivity|]. split; [reflexivity|].
  apply (@text_with_words_has_sentences (str "great job"));
    [vm_compute|]; reflexivity.
Defined.

(** X2: the positive and the negative lexicon share no word, nor do the
    formal and the casual one, so in every extracted vector the
    positive and negative hits together, and the formal and casual hits
    together, are at most the words: each pair of ratios sums to at
    most 1. *)
Theorem lexicon_hits_share_the_words (text : pystr) (f : Features) :
  _extract_features text = Ok f ->
  (positive_word_count f + negative_word_count f <= word_count f)%Z
  /\ (formal_word_count f + casual_word_count f <= word_count f)%Z
  /\ positive_ratio f + negative_ratio f <= 1
  /\ formal_ratio f + casual_ratio f <= 1.
Proof.
  intro E. pose proof (extracted_counts_fit text E) as C.
  pose proof (extracted_ratios_fit text E) as R.
  split; [exact (fit_positive_negative C)|].
  split; [exact (fit_formal_casual C)|].
  split; [exact (fit_polarity R) | exact (fit_register R)].
Qed.

Lemma lexicon_hits_share_the_words_witness :
  exists f,
    _extract_features (str "good bad cool therefore") = Ok f
    /\ (positive_word_count f + negative_word_count f <= word_count f)%Z
    /\ (formal_word_count f + casual_word_count f <= word_count f)%Z
    /\ positive_ratio f + negative_ratio f <= 1
    /\ formal_ratio f + casual_ratio f <= 1.
Proof.
  eexists. split; [vm_compute; reflexivity|].
  apply (@lexicon_hits_share_the_words (str "good bad cool therefore")).
  vm_compute. reflexivity.
Defined.

(** X3: every counted contraction takes two words of the text, neither
    of them a casual word: casual hits plus twice the contractions are
    at most the words, and [contraction_ratio] is at most 1/2. *)
Theorem contractions_take_two_words (text : pystr) (f : Features) :
  _extract_features text = Ok f ->
  (casual_word_count f + 2 * contraction_count f <= word_count f)%Z
  /\ casual_ratio f + 2 * contraction_ratio f <= 1
  /\ contraction_ratio f <= 0.5.
Proof.
  intro E. pose proof (extracted_counts_fit text E) as C.
  pose proof (extracted_ratios_fit text E) as R.
  split; [exact (fit_casual_contractions C)|].
  split; [exact (fit_casual_contraction R)|].
  pose proof (fit_casual_contraction R). pose proof (fit_casual R). lra.
Qed.

Lemma contractions_take_two_words_witness :
  exists f,
    _extract_features (str "yeah don't won't") = Ok f
    /\ contraction_count f = 2%Z
    /\ (casual_word_count f + 2 * contraction_count f <= word_count f)%Z
    /\ casual_ratio f + 2 * contraction_ratio f <= 1
    /\ contraction_ratio f <= 0.5.
Proof.
  eexists. split; [vm_compute; reflexivity|]. split; [reflexivity|].
  apply (@contractions_take_two_words (str "yeah don't won't")).
  vm_compute. reflexivity.
Defined.

(** X4: the word counts, the lexicon hits, the contraction count and the
    ratios and average built on them do not depend on the case of the
    text: the lowercased text gives the same ones. *)
Theorem lexical_features_ignore_case (text : pystr) (f g : Features) :
  _extract_features text = Ok f ->
  _extract_features (lower text) = Ok g ->
  word_count g = word_count f
  /\ positive_word_count g = positive_word_count f
  /\ negative_word_count g = negative_word_count f
  /\ formal_word_count g = formal_word_count f
  /\ casual_word_count g = casual_word_count f
  /\ contraction_count g = contraction_count f
  /\ avg_word_length g = avg_word_length f
  /\ positive_ratio g = positive_ratio f
  /\ negative_ratio g = negative_ratio f
  /\ formal_ratio g = formal_ratio f
  /\ casual_ratio g = casual_ratio f
  /\ contraction_ratio g = contraction_ratio f.
Proof.
  intros F G.
  pose proof (extracted_invariant text F) as IF.
  pose proof (extracted_invariant (lower text) G) as IG.
  pose proof (extracted_word_count text F) as WF.
  pose proof (extracted_word_count (lower text) G) as WG.
  pose proof (extracted_lexicon_counts text F) as (PF & NF & FF & CF).
  pose proof (extracted_lexicon_counts (lower text) G) as (PG & NG & FG & CG).
  pose proof (extracted_contraction_count text F) as KF.
  pose proof (extracted_contraction_count (lower text) G) as KG.
  pose proof (extracted_avg_word_length text F) as AF.
  pose proof (extracted_avg_word_length (lower text) G) as AG.
  cbv zeta in *. rewrite lower_idempotent in *.
  assert (K : contraction_count g = contraction_count f).
  { rewrite KG, KF, split_lower. unfold len. f_equal.
    rewrite filter_map_swap. f_equal. apply filter_ext.
    intro w. now rewrite lower_idempotent. }
  assert (W : word_count g = word_count f) by congruence.
  assert (P : positive_word_count g = positive_word_count f) by congruence.
  assert (N : negative_word_count g = negative_word_count f) by congruence.
  assert (Fo : formal_word_count g = formal_word_count f) by congruence.
  assert (C : casual_word_count g = casual_word_count f) by congruence.
  repeat split; try assumption; try congruence.
  - rewrite (inv_positive_ratio IG), (inv_positive_ratio IF). congruence.
  - rewrite (inv_negative_ratio IG), (inv_negative_ratio IF). congruence.
  - rewrite (inv_formal_ratio IG), (inv_formal_ratio IF). congruence.
  - rewrite (inv_casual_ratio IG), (inv_casual_ratio IF). congruence.
  - rewrite (inv_contraction_ratio IG), (inv_contraction_ratio IF).
    congruence.
Qed.

Lemma lexical_features_ignore_case_witness :
  exists f g,
    _extract_features (str "GREAT, I Don't MIND") = Ok f
    /\ _extract_features (lower (str "GREAT, I Don't MIND")) = Ok g
    /\ caps_words g <> caps_words f
    /\ positive_word_count g = positive_word_count f
    /\ contraction_count g = contraction_count f.
Proof.
  eexists. eexists. split; [vm_compute; reflexivity|].
  split; [vm_compute; reflexivity|]. split; [discriminate|].
  pose proof (@lexical_features_ignore_case (str "GREAT, I Don't MIND") _ _
                eq_refl eq_refl) as (_ & P & _ & _ & _ & K & _).
  split; [exact P | exact K].
Defined.

(** *** The scores *)

Lemma _analyze_sentiment_category (text : pystr) (f : Features) :
  fst (_analyze_sentiment text f)
  = sentiment_category (snd (_analyze_sentiment text f)).
Proof.
  unfold _analyze_sentiment.
  destruct (sentiment_caps f (sentiment_before_caps f)). reflexivity.
Qed.

Lemma _analyze_formality_category (text : pystr) (f : Features)
  (fo : Formality.t * Q) :
  _analyze_formality text f = Ok fo -> fst fo = formality_category (snd fo).
Proof.
  unfold _analyze_formality.
  destruct (formality_sentence_length f (formality_before_sentence_length f))
    as [[formal casual]|]; cbn [bind]; [|discriminate].
  intro E. now injection E as <-.
Qed.

(** X5: in every result the labels agree with the scores: the sentiment
    is positive exactly when its score is above 0.2 and negative exactly
    when it is below -0.2, the formality is formal exactly when its score
    is above 0.5 and casual exactly when it is below -0.5. *)
Theorem labels_agree_with_scores (text : pystr) (analysis : ToneAnalysis) :
  analyze_tone text = Ok analysis ->
  (sentiment analysis = Sentiment.POSITIVE
   <-> 0.2 < score_sentiment (scores analysis))
  /\ (sentiment analysis = Sentiment.NEGATIVE
      <-> score_sentiment (scores analysis) < - 0.2)
  /\ (formality analysis = Formality.FORMAL
      <-> 0.5 < score_formality (scores analysis))
  /\ (formality analysis = Formality.CASUAL
      <-> score_formality (scores analysis) < - 0.5).
Proof.
  intro A. destruct (features analysis) as [f|] eqn:F.
  - destruct (analyze_tone_inversion text A F)
      as (_ & S & SS & fo & Fo & FL & FS & _).
    rewrite S, SS, FL, FS, _analyze_sentiment_category,
      (_analyze_formality_category text f Fo).
    unfold sentiment_category, formality_category.
    repeat split; split_comparisons; intros; try discriminate;
      try reflexivity; lra.
  - rewrite (blank_has_no_features text A F).
    cbn. repeat split; intros; try discriminate; lra.
Qed.

Lemma labels_agree_with_scores_witness :
  exists analysis,
    analyze_tone (str "this is terrible") = Ok analysis
    /\ sentiment analysis = Sentiment.NEGATIVE
    /\ score_sentiment (scores analysis) < - 0.2.
Proof.
  eexists. split; [vm_compute; reflexivity|]. split; [reflexivity|].
  apply (@labels_agree_with_scores (str "this is terrible"));
    [vm_compute|]; reflexivity.
Defined.

(** X6: the formality score of every result lies between -3.4 and 3.9;
    the upper end is reached, and the score of "yep...!" is within a
    thousandth of the lower end. *)
Theorem formality_score_range :
  (forall (text : pystr) (analysis : ToneAnalysis),
      analyze_tone text = Ok analysis ->
      - 3.4 <= score_formality (scores analysis) <= 3.9)
  /\ (exists analysis,
        analyze_tone (str "yep...!") = Ok analysis
        /\ score_formality (scores analysis) <= - 3.399)
  /\ (exists analysis,
        analyze_tone (List.concat (repeat (str "furthermore ") 16))
        = Ok analysis
        /\ score_formality (scores analysis) == 3.9).
Proof.
  split; [|split].
  - intros text analysis A. destruct (features analysis) as [f|] eqn:F.
    + destruct (analyze_tone_inversion text A F)
        as (E & _ & _ & fo & Fo & _ & -> & _).
      exact (formality_score_within text (extracted_ratios_fit text E) Fo).
    + rewrite (blank_has_no_features text A F). cbn. lra.
  - eexists. split; [vm_compute; reflexivity|]. vm_compute. discriminate.
  - eexists. split; [vm_compute; reflexivity|]. reflexivity.
Qed.

Lemma formality_score_range_witness :
  exists analysis,
    analyze_tone (str "great job") = Ok analysis
    /\ - 3.4 <= score_formality (scores analysis) <= 3.9.
Proof.
  eexists. split; [vm_compute; reflexivity|].
  apply (proj1 formality_score_range (str "great job")).
  vm_compute. reflexivity.
Defined.

(** X7: the sentiment score of a text without an exclamation mark lies
    between -2.3 and 2.5. *)
Theorem sentiment_score_range
  (text : pystr) (analysis : ToneAnalysis) (f : Features) :
  analyze_tone text = Ok analysis ->
  features analysis = Some f ->
  exclamation_count f = 0%Z ->
  - 2.3 <= score_sentiment (scores analysis) <= 2.5.
Proof.
  intros A F X.
  destruct (analyze_tone_inversion text A F) as (E & _ & -> & _).
  pose proof (sentiment_score_within text (extracted_ratios_fit text E)) as R.
  assert (Z : exclamation_ratio f == 0).
  { rewrite (inv_exclamation_ratio (extracted_invariant text E)), X.
    apply floored_ratio_zero. }
  rewrite Z in R. lra.
Qed.

Lemma sentiment_score_range_witness :
  exists analysis f,
    analyze_tone (str "GREAT :)") = Ok analysis
    /\ features analysis = Some f
    /\ exclamation_count f = 0%Z
    /\ score_sentiment (scores analysis) == 2.5
    /\ - 2.3 <= score_sentiment (scores analysis) <= 2.5.
Proof.
  eexists. eexists. split; [vm_compute; reflexivity|].
  split; [reflexivity|]. split; [reflexivity|]. split; [reflexivity|].
  eapply (@sentiment_score_range (str "GREAT :)"));
    [vm_compute; reflexivity | reflexivity | reflexivity].
Defined.

Lemma no_hits_no_ratio (f : Features) :
  feature_invariant f ->
  positive_word_count f = 0%Z -> negative_word_count f = 0%Z ->
  positive_ratio f == 0 /\ negative_ratio f == 0.
Proof.
  intros I P N.
  rewrite (inv_positive_ratio I), (inv_negative_ratio I), P, N.
  split; apply floored_ratio_zero.
Qed.

(** X8: a text without a positive or negative word and with at most a
    tenth of its words in capitals is neutral, whatever its exclamation
    marks and emoticons: its score is between 0 and 0.2. *)
Theorem uncharged_text_is_neutral
  (text : pystr) (analysis : ToneAnalysis) (f : Features) :
  analyze_tone text = Ok analysis ->
  features analysis = Some f ->
  positive_word_count f = 0%Z ->
  negative_word_count f = 0%Z ->
  caps_ratio f <= 0.1 ->
  sentiment analysis = Sentiment.NEUTRAL
  /\ 0 <= score_sentiment (scores analysis) <= 0.2.
Proof.
  intros A F P N C.
  destruct (analyze_tone_inversion text A F) as (E & -> & -> & _).
  destruct (no_hits_no_ratio (extracted_invariant text E) P N) as [Pr Nr].
  exact (proj1 (sentiment_without_charge text f Pr Nr) C).
Qed.

Lemma uncharged_text_is_neutral_witness :
  exists analysis f,
    analyze_tone (str "see you at noon!!! :-)") = Ok analysis
    /\ features analysis = Some f
    /\ (0 < emoticon_count f)%Z /\ (0 < exclamation_count f)%Z
    /\ sentiment analysis = Sentiment.NEUTRAL
    /\ 0 <= score_sentiment (scores analysis) <= 0.2.
Proof.
  eexists. eexists. split; [vm_compute; reflexivity|].
  split; [reflexivity|]. split; [reflexivity|]. split; [reflexivity|].
  eapply (@uncharged_text_is_neutral (str "see you at noon!!! :-)"));
    [vm_compute; reflexivity | reflexivity | reflexivity | reflexivity
    | vm_compute; discriminate].
Defined.

(** X9: a text without a positive or negative word of which more than a
    tenth of the words are in capitals is negative with score -0.3 when
    it has no emoticon, and positive with score 0.5 when it has one. *)
Theorem shouting_without_charged_words
  (text : pystr) (analysis : ToneAnalysis) (f : Features) :
  analyze_tone text = Ok analysis ->
  features analysis = Some f ->
  positive_word_count f = 0%Z ->
  negative_word_count f = 0%Z ->
  0.1 < caps_ratio f ->
  (emoticon_count f = 0%Z ->
   sentiment analysis = Sentiment.NEGATIVE
   /\ score_sentiment (scores analysis) == - 0.3)
  /\ ((0 < emoticon_count f)%Z ->
      sentiment analysis = Sentiment.POSITIVE
      /\ score_sentiment (scores analysis) == 0.5).
Proof.
  intros A F P N C.
  destruct (analyze_tone_inversion text A F) as (E & -> & -> & _).
  destruct (no_hits_no_ratio (extracted_invariant text E) P N) as [Pr Nr].
  destruct (sentiment_without_charge text f Pr Nr) as (_ & Neg & Pos).
  split.
  - intro Z. apply Neg; [exact C | lia].
  - intro Z. now apply Pos.
Qed.

Lemma shouting_without_charged_words_witness :
  exists analysis f,
    analyze_tone (str "CALL ME NOW") = Ok analysis
    /\ features analysis = Some f
    /\ 0.1 < caps_ratio f
    /\ sentiment analysis = Sentiment.NEGATIVE
    /\ score_sentiment (scores analysis) == - 0.3.
Proof.
  eexists. eexists. split; [vm_compute; reflexivity|].
  split; [reflexivity|]. split; [reflexivity|].
  eapply (@shouting_without_charged_words (str "CALL ME NOW"));
    [vm_compute; reflexivity | reflexivity | reflexivity | reflexivity
    | reflexivity | reflexivity].
Defined.

(** X10: of two feature vectors that differ only by a larger
    [negative_word_count], and the [negative_ratio] that goes with it,
    the second has a net sentiment score at most as large. *)
Theorem sentiment_antitone_in_negative_words
  (text : pystr) (f1 f2 : Features) :
  feature_invariant f1 ->
  feature_invariant f2 ->
  f2 = with_negative f1 (negative_word_count f2) (negative_ratio f2) ->
  (negative_word_count f1 < negative_word_count f2)%Z ->
  snd (_analyze_sentiment text f2) <= snd (_analyze_sentiment text f1).
Proof.
  intros I1 I2 Same More. rewrite Same.
  apply sentiment_net_antitone.
  - rewrite (inv_negative_ratio I1), (inv_negative_ratio I2).
    replace (word_count f2) with (word_count f1) by now rewrite Same.
    apply ratio_monotone; lia.
  - rewrite (inv_exclamation_ratio I1).
    apply ratio_nonneg; [apply (inv_exclamation_count I1) | lia].
Qed.

Lemma sentiment_antitone_in_negative_words_witness :
  exists f1 f2,
    _extract_features (str "sad xxx!") = Ok f1
    /\ _extract_features (str "sad bad!") = Ok f2
    /\ f2 = with_negative f1 (negative_word_count f2) (negative_ratio f2)
    /\ (negative_word_count f1 < negative_word_count f2)%Z
    /\ snd (_analyze_sentiment [] f2) <= snd (_analyze_sentiment [] f1).
Proof.
  eexists. eexists.
  split; [vm_compute; reflexivity|].
  split; [vm_compute; reflexivity|].
  split; [reflexivity|].
  split; [reflexivity|].
  apply sentiment_antitone_in_negative_words.
  - apply (extracted_invariant (str "sad xxx!")). vm_compute. reflexivity.
  - apply (extracted_invariant (str "sad bad!")). vm_compute. reflexivity.
  - reflexivity.
  - reflexivity.
Defined.

(** X11: a text of fifty words or more has a confidence of at least
    0.6, whatever its scores. *)
Theorem long_text_confidence
  (text : pystr) (analysis : ToneAnalysis) (f : Features) :
  analyze_tone text = Ok analysis ->
  features analysis = Some f ->
  (50 <= word_count f)%Z ->
  0.6 <= confidence analysis.
Proof.
  intros A F W.
  destruct (analyze_tone_inversion text A F)
    as (_ & _ & _ & fo & _ & _ & _ & ->).
  now apply confidence_of_long_text.
Qed.

Lemma long_text_confidence_witness :
  exists analysis f,
    analyze_tone (List.concat (repeat (str "so ") 50)) = Ok analysis
    /\ features analysis = Some f
    /\ word_count f = 50%Z
    /\ 0.6 <= confidence analysis.
Proof.
  eexists. eexists. split; [vm_compute; reflexivity|].
  split; [reflexivity|]. split; [reflexivity|].
  eapply (@long_text_confidence (List.concat (repeat (str "so ") 50)));
    [vm_compute; reflexivity | reflexivity | vm_compute; discriminate].
Defined.

End CodeProperties.

Module EndpointProperties.

Import PyNum PyNumFacts PyStr PyStrFacts ToneAnalysisService Spec SpecMore.
Import ScorerFacts ExtractFacts AnalyzerFacts Router RouterFacts.
Import ScoreFacts EndpointFacts.
Local Open Scope Q_scope.

(** *** [POST /tone] and [POST /tone/detailed] *)

(** X12: the endpoint [/tone] answers a blank text with the error 400
    "Text cannot be empty" and every other text with the labels, scores
    and confidence of [analyze_tone] and the length of the text; the
    confidence it returns is at least 0.1, and it never answers 500. *)
Theorem tone_endpoint_outcome (text : pystr) :
  if nonblank text then
    exists analysis,
      ToneAnalysisService.analyze_tone text = Ok analysis
      /\ 0.1 <= confidence analysis <= 1.0
      /\ ToneRouter.analyze_tone text
         = Response
             {| ToneRouter.labels :=
                  {| label_sentiment := Sentiment.value (sentiment analysis);
                     label_formality := Formality.value (formality analysis) |};
                ToneRouter.response_scores := scores analysis;
                ToneRouter.response_confidence := confidence analysis;
                ToneRouter.text_length := len text |}
  else
    ToneRouter.analyze_tone text
    = HTTPException 400 "Text cannot be empty".
Proof.
  unfold nonblank, ToneRouter.analyze_tone.
  destruct (truthy (strip text)) eqn:B; cbn [negb]; [|reflexivity].
  destruct (analyze_tone_total text) as [analysis A].
  exists analysis. split; [exact A|].
  split; [exact (analysed_confidence text B A)|]. now rewrite A.
Qed.

(** X13: the endpoints [/tone] and [/tone/detailed] agree: both reject a
    blank text with the same 400, and on any other text they return the
    same labels, scores, confidence and length, the detailed one with
    the extracted feature vector. *)
Theorem detailed_endpoint_agrees (text : pystr) :
  match ToneRouter.analyze_tone text,
        ToneRouter.analyze_tone_detailed text with
  | Response plain, Response detailed =>
      ToneRouter.detailed_labels detailed = ToneRouter.labels plain
      /\ ToneRouter.detailed_scores detailed
         = ToneRouter.response_scores plain
      /\ ToneRouter.detailed_confidence detailed
         = ToneRouter.response_confidence plain
      /\ ToneRouter.detailed_text_length detailed
         = ToneRouter.text_length plain
      /\ exists f,
           ToneRouter.detailed_features detailed = Some f
           /\ _extract_features text = Ok f
  | HTTPException code detail, HTTPException code' detail' =>
      nonblank text = false
      /\ code = 400%Z /\ code' = 400%Z /\ detail = detail'
  | _, _ => False
  end.
Proof.
  unfold ToneRouter.analyze_tone, ToneRouter.analyze_tone_detailed, nonblank.
  destruct (truthy (strip text)) eqn:B; cbn [negb]; [|repeat split].
  destruct (analyze_tone_nonblank text B) as (f & fo & E & _ & ->).
  cbn. repeat split. exists f. split; [reflexivity | exact E].
Qed.

(** *** [POST /tone/batch] *)

(** X14: the batch endpoint answers 400 exactly to an empty list and to
    a list of more than ten texts, and answers every other list; it
    never answers 500. *)
Theorem batch_outcome (texts : list pystr) :
  match analyze_tone_batch texts with
  | Response response => texts <> [] /\ (len texts <= 10)%Z
  | HTTPException code detail =>
      code = 400%Z
      /\ ((texts = [] /\ detail = "No texts provided"%string)
          \/ ((10 < len texts)%Z
              /\ detail
                 = ("Too many texts. "
                    ++ "Maximum 10 texts per batch request.")%string))
  end.
Proof.
  destruct texts as [|t ts]; [cbn; split; [reflexivity | now left]|].
  destruct (Z.ltb_spec 10 (len (t :: ts))) as [L|L].
  - unfold analyze_tone_batch. rewrite (proj2 (Z.ltb_lt _ _) L).
    split; [reflexivity | now right].
  - destruct (@analyze_tone_batch_response (t :: ts)) as (r & -> & _);
      [discriminate | exact L |]. split; [discriminate | exact L].
Qed.

(** X15: in a batch response [total_texts] is the number of texts,
    [successful_analyses] the number of those that are not blank, every
    text has its entry, and the entries marked as skipped are as many as
    the blank texts. *)
Theorem batch_counters (texts : list pystr) (response : BatchResponse) :
  analyze_tone_batch texts = Response response ->
  total_texts response = len texts
  /\ len (results response) = len texts
  /\ successful_analyses response = len (filter nonblank texts)
  /\ len (filter skipped (results response))
     = (total_texts response - successful_analyses response)%Z.
Proof.
  intro E. apply analyze_tone_batch_inversion in E. cbv zeta in E.
  destruct E as (_ & _ & R & T & S & _).
  destruct (batch_loop_totals texts batch_start) as (C & _). cbv zeta in C.
  rewrite R, T, S, C. cbn [processed_count batch_start].
  split; [reflexivity|]. split; [unfold len; now rewrite length_map|].
  split; [lia|]. rewrite batch_skipped_entries. lia.
Qed.

Lemma batch_counters_witness :
  exists response,
    analyze_tone_batch [str "great job"; str "  "; str "so sad"; str ""]
    = Response response
    /\ total_texts response = 4%Z
    /\ successful_analyses response = 2%Z
    /\ len (filter skipped (results response)) = 2%Z.
Proof.
  eexists. split; [vm_compute; reflexivity|].
  destruct (@batch_counters
              [str "great job"; str "  "; str "so sad"; str ""] _ eq_refl)
    as (T & _ & S & K).
  split; [exact T|]. split; [exact S|]. exact K.
Defined.

(** X16: [average_confidence] of a batch response is 0 when every text
    of the batch is blank; otherwise it is positive and at most 1. *)
Theorem batch_average_confidence
  (texts : list pystr) (response : BatchResponse) :
  analyze_tone_batch texts = Response response ->
  (successful_analyses response = 0%Z -> average_confidence response == 0)
  /\ ((0 < successful_analyses response)%Z ->
      0 < average_confidence response <= 1).
Proof.
  intro E. apply analyze_tone_batch_inversion in E. cbv zeta in E.
  destruct E as (_ & _ & _ & _ & S & A).
  destruct (batch_loop_totals texts batch_start) as (C & Lo & Hi).
  cbv zeta in C, Lo, Hi.
  cbn [processed_count total_confidence batch_start] in *.
  rewrite S, A, C.
  generalize dependent (len (filter nonblank texts)). intros n _ Lo Hi.
  generalize dependent
    (total_confidence (fold_left batch_step texts batch_start)).
  intros total _ Lo Hi. rewrite Z.add_0_l.
  split.
  - intros ->. change (inject_Z 0) with 0 in *.
    cbn [Z.max]. change (inject_Z 1) with 1.
    assert (Zero : total == 0) by lra. rewrite Zero. reflexivity.
  - intro P. replace (Z.max n 1) with n by lia.
    assert (Q : 0 < inject_Z n) by (apply inject_Z_pos; lia).
    split.
    + apply Qlt_shift_div_l; [exact Q | lra].
    + apply Qle_shift_div_r; [exact Q | lra].
Qed.

Lemma batch_average_confidence_witness :
  (exists response,
      analyze_tone_batch [str ""; str "  "] = Response response
      /\ average_confidence response == 0)
  /\ (exists response,
        analyze_tone_batch [str "great job"; str ""] = Response response
        /\ 0 < average_confidence response <= 1).
Proof.
  split.
  - eexists. split; [vm_compute; reflexivity|].
    apply (proj1 (@batch_average_confidence [str ""; str "  "] _ eq_refl)).
    reflexivity.
  - eexists. split; [vm_compute; reflexivity|].
    apply (proj2 (@batch_average_confidence [str "great job"; str ""] _
                    eq_refl)).
    reflexivity.
Defined.

(** X17: the entry of a batch for a text that is not blank carries what
    the endpoint [/tone] answers for that text alone. *)
Theorem batch_entry_agrees_with_endpoint
  (texts : list pystr) (i : nat) (text : pystr)
  (response : BatchResponse) (plain : ToneRouter.ToneResponse) :
  analyze_tone_batch texts = Response response ->
  nth_error texts i = Some text ->
  ToneRouter.analyze_tone text = Response plain ->
  exists item,
    nth_error (results response) i = Some item
    /\ skipped item = false
    /\ item_text item = text
    /\ item_labels item = ToneRouter.labels plain
    /\ item_scores item = ToneRouter.response_scores plain
    /\ item_confidence item = ToneRouter.response_confidence plain.
Proof.
  intros E At P. apply analyze_tone_batch_inversion in E. cbv zeta in E.
  destruct E as (_ & _ & R & _).
  exists (batch_entry text). rewrite R.
  split; [now rewrite nth_error_map, At|].
  revert P. unfold ToneRouter.analyze_tone, batch_entry.
  destruct (truthy (strip text)); cbn [negb]; [|discriminate].
  destruct (ToneAnalysisService.analyze_tone text); [|discriminate].
  intro P. injection P as <-. repeat split.
Qed.

Lemma batch_entry_agrees_with_endpoint_witness :
  exists response plain item,
    analyze_tone_batch [str ""; str "great job"] = Response response
    /\ ToneRouter.analyze_tone (str "great job") = Response plain
    /\ nth_error (results response) 1 = Some item
    /\ item_labels item = ToneRouter.labels plain
    /\ item_confidence item = ToneRouter.response_confidence plain.
Proof.
  eexists. eexists.
  destruct (@batch_entry_agrees_with_endpoint
              [str ""; str "great job"] 1 (str "great job") _ _
              eq_refl eq_refl eq_refl)
    as (item & At & _ & _ & L & _ & C).
  exists item. split; [vm_compute; reflexivity|].
  split; [vm_compute; reflexivity|].
  split; [exact At|]. split; [exact L | exact C].
Defined.

End EndpointProperties.

Module AuthProperties.

Import PyStr PyStrFacts Router Main SpecMore AuthFacts.

Lemma exempt_decided (request : Request) :
  startswith (url_path request) (str "/health")
  || eqb (method request) (str "OPTIONS") = true
  <-> exempt request.
Proof.
  unfold exempt. now rewrite orb_true_iff, startswith_prefix, eqb_eq.
Qed.

Lemma not_exempt_decided (request : Request) :
  ~ exempt request ->
  startswith (url_path request) (str "/health")
  || eqb (method request) (str "OPTIONS") = false.
Proof.
  intro N. destruct (_ || _) eqn:E; [|reflexivity].
  apply exempt_decided in E. contradiction.
Qed.

(** X18: a request whose path starts with [/health], or whose method is
    [OPTIONS], passes [verify_token] whatever the headers are, whether
    or not a token is configured. *)
Theorem health_and_options_skip_auth
  (request : Request) (credentials LOCAL_API_TOKEN : option pystr) :
  exempt request ->
  verify_token request credentials LOCAL_API_TOKEN = Response tt.
Proof.
  intro X. apply exempt_decided in X. unfold verify_token. now rewrite X.
Qed.

Lemma health_and_options_skip_auth_witness :
  verify_token {| url_path := str "/health/lt";
                  method := str "GET";
                  x_local_auth := None |} None None
  = Response tt.
Proof.
  apply health_and_options_skip_auth. left. exists (str "/lt"). reflexivity.
Defined.

(** X19: when [LOCAL_API_TOKEN] is unset or empty, every request that is
    not exempt is answered 500, whatever token it presents. *)
Theorem missing_token_is_server_error
  (request : Request) (credentials LOCAL_API_TOKEN : option pystr) :
  ~ exempt request ->
  LOCAL_API_TOKEN = None \/ LOCAL_API_TOKEN = Some [] ->
  verify_token request credentials LOCAL_API_TOKEN
  = HTTPException 500 "Server configuration error: API token not set".
Proof.
  intros N T. unfold verify_token. rewrite (not_exempt_decided N).
  destruct T as [-> | ->]; reflexivity.
Qed.

Lemma path_is_not_health (path : pystr) :
  startswith path (str "/health") = false ->
  forall rest, path <> str "/health" ++ rest.
Proof.
  intros S rest E.
  assert (T : startswith path (str "/health") = true)
    by (apply startswith_prefix; now exists rest).
  congruence.
Qed.

Lemma missing_token_is_server_error_witness :
  verify_token {| url_path := str "/api/tone";
                  method := str "POST";
                  x_local_auth := Some [] |} (Some []) (Some [])
  = HTTPException 500 "Server configuration error: API token not set".
Proof.
  apply missing_token_is_server_error; [|now right].
  intros [[rest E] | M]; [|discriminate].
  exact (@path_is_not_health (str "/api/tone") eq_refl rest E).
Defined.

(** X20: with a token configured, a request that is not exempt passes
    exactly when its [X-Local-Auth] header or its bearer credentials
    equal the token; any other request is answered 401. *)
Theorem token_decides_access
  (request : Request) (credentials : option pystr) (expected : pystr) :
  ~ exempt request ->
  expected <> [] ->
  (x_local_auth request = Some expected \/ credentials = Some expected ->
   verify_token request credentials (Some expected) = Response tt)
  /\ (x_local_auth request <> Some expected ->
      credentials <> Some expected ->
      verify_token request credentials (Some expected)
      = HTTPException 401 "Invalid or missing authentication token").
Proof.
  intros N T. unfold verify_token. rewrite (not_exempt_decided N).
  destruct expected as [|c expected]; [contradiction|]. cbn [truthy negb].
  split.
  - intros [H | C].
    + rewrite H. cbn [truthy andb]. now rewrite eqb_refl.
    + rewrite C, eqb_refl.
      destruct (x_local_auth request) as [header|]; [|reflexivity].
      destruct (truthy header && eqb header (c :: expected)); reflexivity.
  - intros H C.
    assert (HF : match x_local_auth request with
                 | Some header => truthy header && eqb header (c :: expected)
                 | None => false
                 end = false).
    { destruct (x_local_auth request) as [header|]; [|reflexivity].
      rewrite eqb_neq; [apply andb_false_r | congruence]. }
    assert (CF : match credentials with
                 | Some token => eqb token (c :: expected)
                 | None => false
                 end = false).
    { destruct credentials as [token|]; [|reflexivity].
      apply eqb_neq. congruence. }
    now rewrite HF, CF.
Qed.

Lemma token_decides_access_witness :
  verify_token {| url_path := str "/api/tone";
                  method := str "POST";
                  x_local_auth := None |} (Some (str "secret"))
               (Some (str "secret"))
  = Response tt
  /\ verify_token {| url_path := str "/api/tone";
                     method := str "POST";
                     x_local_auth := Some (str "guess") |} None
                  (Some (str "secret"))
     = HTTPException 401 "Invalid or missing authentication token".
Proof.
  assert (N : forall header,
             ~ exempt {| url_path := str "/api/tone";
                         method := str "POST";
                         x_local_auth := header |}).
  { intros header [[rest E] | M]; [|discriminate].
    exact (@path_is_not_health (str "/api/tone") eq_refl rest E). }
  split.
  - apply (proj1 (@token_decides_access _ (Some (str "secret")) (str "secret")
                    (N None) ltac:(discriminate))).
    now right.
  - apply (proj2 (@token_decides_access _ None (str "secret")
                    (N (Some (str "guess"))) ltac:(discriminate)));
      discriminate.
Defined.

End AuthProperties.
